(** * gippy.data.core: tile coverage, temporal inventory and product lookup

    A shallow embedding of [gippy/data/core.py] (classes [Data] and
    [DataInventory]) together with the properties its specification states
    about them.

    Conventions of the embedding.
    - A Python call that may raise is a function into [result]; [Raise e]
      carries the class of the exception, [Ok v] the returned value.
    - A Python [dict] is a [gmap]; a [dict] with [str] keys is a
      [gmap string _].  Subscripting a missing key raises [KeyError].
    - Areas and coverage weights (Python floats produced by the geometry
      library) are exact rationals [Q].
    - Everything the module obtains from other libraries (geometry, the
      file system, date parsing) is collected in the class [Externals]. *)

From Stdlib Require Import ZArith QArith String Ascii List Lia.
From Stdlib Require Import Sorting.Sorted Permutation DecimalString.
From stdpp Require Import base option gmap strings list sorting.

Local Open Scope string_scope.
Local Open Scope list_scope.
Local Open Scope Z_scope.

(** ** Exceptions and the error monad *)

Inductive exn : Type :=
| NameError
| AttributeError
| KeyError
| TypeError
| ValueError
| IndexError
| OSError
| ZeroDivisionError.

Inductive result (A : Type) : Type :=
| Ok (a : A)
| Raise (e : exn).

Arguments Ok {A} a.
Arguments Raise {A} e.

#[global] Instance result_ret : MRet result := fun A a => Ok a.

#[global] Instance result_bind : MBind result := fun A B k r =>
  match r with
  | Ok a => k a
  | Raise e => Raise e
  end.

Definition is_Ok {A : Type} (r : result A) : bool :=
  match r with Ok _ => true | Raise _ => false end.

(** [d[k]] on a dict. *)
Definition getitem {K V : Type} `{Countable K} (d : gmap K V) (k : K) : result V :=
  match d !! k with
  | Some v => Ok v
  | None => Raise KeyError
  end.

(** [l[i]] on a list or tuple, for a non-negative index. *)
Definition index {A : Type} (l : list A) (i : nat) : result A :=
  match nth_error l i with
  | Some v => Ok v
  | None => Raise IndexError
  end.

(** ** Strings: [str.split] and [int] *)

(** [s.split(sep)] for a one-character separator. *)
Fixpoint split (sep : ascii) (s : string) : list string :=
  match s with
  | EmptyString => [EmptyString]
  | String c s' =>
      if Ascii.eqb c sep then EmptyString :: split sep s'
      else match split sep s' with
           | f :: fs => String c f :: fs
           | [] => [String c EmptyString]
           end
  end.

Definition is_space (c : ascii) : bool :=
  let n := nat_of_ascii c in
  (Nat.eqb n 32 || (Nat.leb 9 n && Nat.leb n 13))%bool.

Definition digit_of (c : ascii) : option Z :=
  let n := Z.of_nat (nat_of_ascii c) in
  if ((48 <=? n) && (n <=? 57))%bool then Some (n - 48) else None.

Fixpoint lstrip (s : string) : string :=
  match s with
  | String c s' => if is_space c then lstrip s' else s
  | EmptyString => EmptyString
  end.

(** Reads a maximal run of decimal digits; returns the number of digits
    read, their value and the rest of the string. *)
Fixpoint read_digits (s : string) (n : nat) (acc : Z) : nat * Z * string :=
  match s with
  | String c s' =>
      match digit_of c with
      | Some d => read_digits s' (S n) (10 * acc + d)
      | None => (n, acc, s)
      end
  | EmptyString => (n, acc, s)
  end.

(** [int(s)] for a [str] in base ten: blanks, an optional sign, blanks,
    at least one digit, blanks. *)
Definition int (s : string) : result Z :=
  let s := lstrip s in
  let '(neg, s) :=
    match s with
    | String "-" s' => (true, s')
    | String "+" s' => (false, s')
    | _ => (false, s)
    end in
  let '(n, v, rest) := read_digits (lstrip s) 0 0 in
  match n, lstrip rest with
  | S _, EmptyString => Ok (if neg then - v else v)
  | _, _ => Raise ValueError
  end.

(** [str(n)] for an [int]: its decimal digits, after a [-] when it is
    negative. *)
Definition str (n : Z) : string := NilZero.string_of_int (Z.to_int n).

(** ** Calendar dates ([datetime.date]) *)

Record Date : Type := mkdate { year : Z; month : Z; day : Z }.

Definition is_leap (y : Z) : bool :=
  ((y mod 4 =? 0) && (negb (y mod 100 =? 0) || (y mod 400 =? 0)))%bool.

Definition days_before_month (y m : Z) : Z :=
  nth (Z.to_nat (m - 1)) [0; 31; 59; 90; 120; 151; 181; 212; 243; 273; 304; 334] 0
  + (if ((2 <? m) && is_leap y)%bool then 1 else 0).

(** [int(d.strftime('%j'))]: the ordinal of the day within its year. *)
Definition day_of_year (d : Date) : Z :=
  days_before_month (year d) (month d) + day d.

(** [d1 <= d2] on dates compares (year, month, day) lexicographically. *)
Definition date_leb (d1 d2 : Date) : bool :=
  ((year d1 <? year d2)
   || ((year d1 =? year d2)
       && ((month d1 <? month d2)
           || ((month d1 =? month d2) && (day d1 <=? day d2)))))%bool.

Definition date_le (d1 d2 : Date) : Prop := date_leb d1 d2 = true.

#[global] Instance date_eq_dec : EqDecision Date.
Proof. solve_decision. Defined.

#[global] Instance date_countable : Countable Date.
Proof.
  refine (inj_countable' (fun d => (year d, month d, day d))
                         (fun t => mkdate t.1.1 t.1.2 t.2) _).
  intros []; reflexivity.
Defined.

#[global] Instance date_le_dec (d1 d2 : Date) : Decision (date_le d1 d2).
Proof. unfold date_le. apply _. Defined.

(** [sorted(l)] on dates and on strings. *)
Definition sorted_dates (l : list Date) : list Date := merge_sort date_le l.

Definition str_le (s1 s2 : string) : Prop := String.leb s1 s2 = true.

#[global] Instance str_le_dec (s1 s2 : string) : Decision (str_le s1 s2).
Proof. unfold str_le. apply _. Defined.

Definition sorted_strs (l : list string) : list string := merge_sort str_le l.

(** Comparisons of areas can be decided. *)
#[global] Instance Qle_decision (x y : Q) : Decision (Qle x y).
Proof. unfold Qle. apply _. Defined.

#[global] Instance Qeq_decision (x y : Q) : Decision (Qeq x y).
Proof. unfold Qeq. apply _. Defined.

(** The strict part of an order. *)
Definition strictly {A : Type} (R : relation A) (x y : A) : Prop :=
  R x y /\ x <> y.

(** [os.path.join(a, b)] and [os.path.basename(p)] on POSIX paths. *)
Definition starts_with_slash (s : string) : bool :=
  match s with
  | String "/" _ => true
  | _ => false
  end.

Fixpoint ends_with_slash (s : string) : bool :=
  match s with
  | EmptyString => false
  | String c EmptyString => Ascii.eqb c "/"
  | String _ s' => ends_with_slash s'
  end.

Definition path_join (a b : string) : string :=
  if starts_with_slash b then b
  else if (String.eqb a "" || ends_with_slash a)%bool then String.append a b
  else String.append a (String.append "/" b).

Definition basename (p : string) : string := List.last (split "/" p) "".

(** ** What the module takes from other libraries *)

Class Externals : Type := {
  (** vector data sets ([gippy.GeoVector]) and geometries (shapely, OGR) *)
  Vector : Type;
  Geom : Type;
  (** [gippy.GeoVector(filename)] *)
  GeoVector : string -> result Vector;
  (** [vector.union()], as the geometry read back from its WKB *)
  union : Vector -> result Geom;
  (** the geometry moved from the spatial reference of the vector's layer
      to the one of the tile layer ([osr.CoordinateTransformation],
      [Transform]) *)
  transform : Vector -> Geom -> result Geom;
  (** [g.area] *)
  geom_area : Geom -> Q;
  (** [g.intersection(h).area] *)
  intersection_area : Geom -> Geom -> Q;
  (** whether a feature with geometry [h] is still read from a layer after
      [SetSpatialFilter(g)] *)
  spatial_filter : Geom -> Geom -> bool;
  (** [os.listdir(path)] *)
  listdir : string -> result (list string);
  (** [datetime.datetime.strptime(s, '%Y%j').date()] *)
  strptime_Yj : string -> result Date;
  (** [agspy.utils.dateparse.range(s)] *)
  dateparse_range : string -> result (Date * Date)
}.

(** A feature of the tile layer: the text [str(feat.GetField(fldindex))] of
    its tile attribute and its geometry. *)
Record Feature `{Externals} : Type := mkFeature {
  tile_field : string;
  geometry : Geom
}.

Arguments mkFeature {_} _ _.

(** The [tiles] argument is a list of tile names or a coverage dict; a loop
    over it visits the names, respectively the keys. *)
Inductive tiles_arg : Type :=
| TileList (l : list string)
| TileDict (m : gmap string Q).

Definition iter_tiles (t : tiles_arg) : list string :=
  match t with
  | TileList l => l
  | TileDict m => (map_to_list m).*1
  end.

(** Class attributes of [Data] and of its subclasses; [tiles_layer] is the
    layer of [get_tiles_vector()] with the attribute [_tiles_attribute]
    read from every feature. *)
Record ClassAttrs `{Externals} : Type := mkClassAttrs {
  name : string;
  sensors : gmap string string;
  rootdir : string;
  tiles_layer : result (list Feature)
}.

Arguments mkClassAttrs {_} _ _ _ _.

(** ** class Data *)

Module Data.
Section Data.
Context `{Ext : Externals}.

(** The instance attributes.  [sensor] is not set by [Data.__init__];
    [None] stands for an attribute that is missing. *)
Record t : Type := mk {
  site : option string;
  tile_coverage : gmap string Q;
  tiles : gmap string (gmap string (gmap string string));
  date : option Date;
  products : gmap string string;
  sensor : option string
}.

Definition path (cls : ClassAttrs) (tile date : string) : string :=
  if String.eqb tile "" then rootdir cls
  else if String.eqb date "" then path_join (rootdir cls) tile
  else path_join (path_join (rootdir cls) tile) date.

(** The key under which [vector2tiles] files a feature (lines 110 and
    111). *)
Definition tile_id (feat : Feature) : string :=
  let tile := tile_field feat in
  if Nat.eqb (String.length tile) 5 then String.append "0" tile else tile.

(** The loop of [vector2tiles] over the features read from the layer. *)
Fixpoint vector2tiles_loop (geom : Geom) (feats : list Feature)
    (tiles : gmap string Q) : result (gmap string Q) :=
  match feats with
  | [] => Ok tiles
  | feat :: rest =>
      let area := intersection_area geom (geometry feat) in
      if negb (Qeq_bool area 0) then
        let tile := tile_id feat in
        if Qeq_bool (geom_area geom) 0 then Raise ZeroDivisionError
        else vector2tiles_loop geom rest (<[tile := (area / geom_area geom)%Q]> tiles)
      else vector2tiles_loop geom rest tiles
  end.

Definition vector2tiles (cls : ClassAttrs) (vector : Vector)
    : result (gmap string Q) :=
  geom ← union vector;
  tlayer ← tiles_layer cls;
  geom ← transform vector geom;
  let feats := List.filter (fun f => spatial_filter geom (geometry f)) tlayer in
  match feats with
  | [] => Raise AttributeError  (* [feat] is [None]: [feat.GetFieldIndex] *)
  | _ :: _ => vector2tiles_loop geom feats ∅
  end.

Definition init (cls : ClassAttrs) (site : option string)
    (tiles : option tiles_arg) (date : option Date)
    (products : option (list string)) : result t :=
  tile_coverage ←
    match tiles, site with
    | Some tiles, _ =>
        Ok (foldl (fun d t => <[t := 1%Q]> d) ∅ (iter_tiles tiles))
    | None, Some _ => Raise NameError  (* the name [cls] *)
    | None, None =>
        names ← listdir (path cls "" "");
        Ok (foldl (fun d t => <[t := 1%Q]> d) ∅ names)
    end;
  Ok {| site := site;
        tile_coverage := tile_coverage;
        tiles := foldl (fun d t => <[t := ∅]> d) ∅ (map_to_list tile_coverage).*1;
        date := date;
        products := ∅;
        sensor := None |}.

Definition filename (self : t) (product : string) (tile : option string)
    : result string :=
  match tile with
  | Some tile =>
      entry ← getitem (tiles self) tile;
      prods ← getitem entry "products";
      getitem prods product
  | None => getitem (products self) "product"
  end.

Fixpoint extend_products
    (entries : list (string * gmap string (gmap string string)))
    (products : list string) : result (list string) :=
  match entries with
  | [] => Ok products
  | (_, entry) :: rest =>
      prods ← getitem entry "products";
      extend_products rest (products ++ (map_to_list prods).*1)
  end.

Definition get_products (self : t) : result (list string) :=
  products ← extend_products (map_to_list (tiles self)) [];
  Ok (sorted_strs (elements (list_to_set products : gset string))).

Fixpoint parse_dates (names : list string) : result (list Date) :=
  match names with
  | [] => Ok []
  | d :: rest =>
      x ← strptime_Yj (basename d);
      xs ← parse_dates rest;
      Ok (x :: xs)
  end.

Definition find_dates (cls : ClassAttrs) (tile : string) : result (list Date) :=
  names ← listdir (path cls tile "");
  parse_dates names.

(** [sorted(cls.sensors.values())]. *)
Definition sensor_names (cls : ClassAttrs) : list string :=
  sorted_strs (map_to_list (sensors cls)).*2.

End Data.
End Data.

(** What [DataInventory] uses of the class it is given: the class
    attributes, the constructor and the [process] method of its instances
    (subclasses of [Data] define them; the methods [find_dates] and
    [vector2tiles] are those of [Data]). *)
Record DataClass `{Externals} : Type := mkDataClass {
  attrs : ClassAttrs;
  new : option string -> option tiles_arg -> option Date ->
        option (list string) -> result Data.t;
  process_data : Data.t -> list string -> bool -> string -> bool ->
                 result Data.t
}.

Arguments mkDataClass {_} _ _ _.

(** The class [Data] itself: it has no method [process]. *)
Definition Data_class `{Externals} (cls : ClassAttrs) : DataClass :=
  {| attrs := cls;
     new := Data.init cls;
     process_data := fun _ _ _ _ _ => Raise AttributeError |}.

(** ** class DataInventory *)

Module DataInventory.
Section DataInventory.
Context `{Ext : Externals}.

(** The instance attributes.  [data] and [numfiles] are first set by
    [AddData]; before that the record holds an empty dict and 0. *)
Record t : Type := mk {
  dataclass : DataClass;
  site : option string;
  tiles : option tiles_arg;
  start_date : Date;
  end_date : Date;
  start_day : Z;
  end_day : Z;
  numfiles : Z;
  data : gmap Date (gmap string Data.t)
}.

(** A call [dat.process(products, overwrite, suffix, overviews)], with
    the date and the sensor under which [dat] is filed. *)
Record process_call : Type := mkCall {
  call_date : Date;
  call_sensor : string;
  call_products : list string;
  call_overwrite : bool
}.

Definition dates (self : t) : list Date :=
  sorted_dates (map_to_list (data self)).*1.

Definition numdates (self : t) : Z := Z.of_nat (size (data self)).

(** The test of line 179. *)
Definition in_extent (start_date end_date : Date) (start_day end_day : Z)
    (date : Date) : bool :=
  let day := day_of_year date in
  ((date_leb start_date date && date_leb date end_date)
   && ((start_day <=? day) && (day <=? end_day)))%bool.

(** A date passes the test with the bounds of the inventory. *)
Definition within (self : t) (date : Date) : Prop :=
  in_extent (start_date self) (end_date self) (start_day self) (end_day self)
    date = true.

Fixpoint add_dates (self : t) (found : list Date) (dates : list Date)
    : list Date :=
  match found with
  | [] => dates
  | date :: rest =>
      if in_extent (start_date self) (end_date self)
                   (start_day self) (end_day self) date
      then if bool_decide (date ∈ dates) then add_dates self rest dates
           else add_dates self rest (dates ++ [date])
      else add_dates self rest dates
  end.

Fixpoint matching_dates (self : t) (cls : ClassAttrs) (tiles : list string)
    (dates : list Date) : result (list Date) :=
  match tiles with
  | [] => Ok dates
  | t :: rest =>
      found ← Data.find_dates cls t;
      matching_dates self cls rest (add_dates self found dates)
  end.

Fixpoint add_datasets (self : t) (dataclass : DataClass)
    (products : option (list string)) (dates : list Date) : result t :=
  match dates with
  | [] => Ok self
  | date :: rest =>
      dat ← new dataclass (site self) (tiles self) (Some date) products;
      sensor ← match Data.sensor dat with
               | Some s => Ok s
               | None => Raise AttributeError
               end;
      add_datasets
        {| dataclass := DataInventory.dataclass self;
           site := site self;
           tiles := tiles self;
           start_date := start_date self;
           end_date := end_date self;
           start_day := start_day self;
           end_day := end_day self;
           numfiles := numfiles self + Z.of_nat (size (Data.tiles dat));
           data := <[date := {[sensor := dat]}]> (data self) |}
        dataclass products rest
  end.

Definition set_tiles (self : t) (tiles : option tiles_arg) : t :=
  {| dataclass := dataclass self; site := site self; tiles := tiles;
     start_date := start_date self; end_date := end_date self;
     start_day := start_day self; end_day := end_day self;
     numfiles := numfiles self; data := data self |}.

Definition reset_data (self : t) : t :=
  {| dataclass := dataclass self; site := site self; tiles := tiles self;
     start_date := start_date self; end_date := end_date self;
     start_day := start_day self; end_day := end_day self;
     numfiles := 0; data := ∅ |}.

(** Lines 172 and 173: without tiles, the tiles are those the site
    covers. *)
Definition site_tiles (self : t) (dataclass : DataClass) : result t :=
  match tiles self, site self with
  | None, Some site =>
      vector ← GeoVector site;
      cover ← Data.vector2tiles (attrs dataclass) vector;
      Ok (set_tiles self (Some (TileDict cover)))
  | _, _ => Ok self
  end.

Definition AddData (self : t) (dataclass : DataClass)
    (products : option (list string)) : result t :=
  self ← site_tiles self dataclass;
  names ← match tiles self with
          | Some tiles => Ok (iter_tiles tiles)
          | None => Raise TypeError  (* a loop over [None] *)
          end;
  dates ← matching_dates self (attrs dataclass) names [];
  add_datasets (reset_data self) dataclass products (sorted_dates dates).

Definition temporal_extent (self : t) (dates days : option string)
    : result t :=
  let dates := match dates with None => "1984,2050" | Some s => s end in
  '(start_date, end_date) ← dateparse_range dates;
  '(start_day, end_day) ←
    match days with
    | Some (String c s) =>
        let days := split "," (String c s) in
        d0 ← index days 0; a ← int d0;
        d1 ← index days 1; b ← int d1;
        Ok (a, b)
    | _ => Ok (1, 366)
    end;
  Ok {| dataclass := dataclass self; site := site self; tiles := tiles self;
        start_date := start_date; end_date := end_date;
        start_day := start_day; end_day := end_day;
        numfiles := numfiles self; data := data self |}.

(** [DataInventory(dataclass, site, tiles, dates, days, products)].  The
    attributes that [temporal_extent] and [AddData] set are not read
    before; the record starts with placeholders for them. *)
Definition init (dataclass : DataClass) (site : option string)
    (tiles : option tiles_arg) (dates days : option string)
    (products : option (list string)) : result t :=
  let self :=
    {| dataclass := dataclass; site := site; tiles := tiles;
       start_date := mkdate 1 1 1; end_date := mkdate 1 1 1;
       start_day := 0; end_day := 0; numfiles := 0; data := ∅ |} in
  self ← temporal_extent self dates days;
  AddData self dataclass products.

(** [process]: the calls made to the [process] method of the data sets,
    in order, and the outcome. *)
Fixpoint process_sensors (self : t) (date : Date) (sensors : list string)
    (products : list string) (overwrite : bool) (suffix : string)
    (overviews : bool) (log : list process_call)
    : list process_call * result t :=
  match sensors with
  | [] => (log, Ok self)
  | sensor :: rest =>
      match getitem (data self) date ≫= fun d => getitem d sensor with
      | Raise e => (log, Raise e)
      | Ok dat =>
          let log := log ++ [mkCall date sensor products overwrite] in
          match process_data (dataclass self) dat products overwrite
                  suffix overviews with
          | Raise e => (log, Raise e)
          | Ok dat =>
              let self :=
                {| dataclass := dataclass self; site := site self;
                   tiles := tiles self;
                   start_date := start_date self; end_date := end_date self;
                   start_day := start_day self; end_day := end_day self;
                   numfiles := numfiles self;
                   data := alter (insert sensor dat) date (data self) |} in
              process_sensors self date rest products overwrite suffix
                overviews log
          end
      end
  end.

Fixpoint process_dates (self : t) (dates : list Date)
    (products : list string) (overwrite : bool) (suffix : string)
    (overviews : bool) (log : list process_call)
    : list process_call * result t :=
  match dates with
  | [] => (log, Ok self)
  | date :: rest =>
      match getitem (data self) date with
      | Raise e => (log, Raise e)
      | Ok by_sensor =>
          match process_sensors self date (map_to_list by_sensor).*1
                  products overwrite suffix overviews log with
          | (log, Ok self) =>
              process_dates self rest products overwrite suffix overviews log
          | (log, Raise e) => (log, Raise e)
          end
      end
  end.

Definition process (self : t) (products : list string) (overwrite : bool)
    (suffix : string) (overviews : bool) : list process_call * result t :=
  process_dates self (dates self) products overwrite suffix overviews [].

(** The class attributes [_colororder] and [_colorcodes]. *)
Definition _colororder : list string :=
  ["bright yellow"; "bright red"; "bright green"; "bright blue"].

Definition _colorcodes : gmap string string :=
  list_to_map
    [("bright yellow", "1;33"); ("bright red", "1;31");
     ("bright green", "1;32"); ("bright blue", "1;34");
     ("bright purple", "1;35"); ("bright cyan", "1;36");
     ("red", "0;31"); ("green", "0;32"); ("blue", "0;34");
     ("cyan", "0;36"); ("yellow", "0;33"); ("purple", "0;35")].

(** The escape character, written [\033] in the source. *)
Definition esc : string := String (ascii_of_nat 27) EmptyString.

Definition _colorize (txt color : string) : result string :=
  code ← getitem _colorcodes color;
  Ok (String.append esc
        (String.append "["
           (String.append code
              (String.append "m"
                 (String.append txt (String.append esc "[0m")))))).

(** [self[date]]. *)
Definition __getitem__ (self : t) (date : Date) : result (gmap string Data.t) :=
  getitem (data self) date.

(** [l[date]] on a list: an index of a list is an integer, a date is
    none. *)
Definition index_date {A B : Type} (l : list A) (date : Date) : result B :=
  Raise TypeError.

(** [filenames]: the loop subscripts the list [self.dates] with the date.
    The dict that the loop fills is not returned. *)
Fixpoint filenames_loop (self : t) (ds : list Date) (sensor product : string)
    (filenames : gmap Date string) : result (gmap Date string) :=
  match ds with
  | [] => Ok filenames
  | date :: rest =>
      by_sensor ← index_date (B := gmap string Data.t) (dates self) date;
      match by_sensor !! sensor with
      | Some dat =>
          f ← Data.filename dat product None;
          filenames_loop self rest sensor product (<[date := f]> filenames)
      | None => filenames_loop self rest sensor product filenames
      end
  end.

Definition filenames (self : t) (sensor product : string) : result unit :=
  _ ← filenames_loop self (dates self) sensor product ∅;
  Ok tt.

(** [get_products(date)]: the products of the data sets of a date. *)
Fixpoint collect_products (datasets : list (string * Data.t))
    (prods : list string) : result (list string) :=
  match datasets with
  | [] => Ok prods
  | (_, dat) :: rest =>
      ps ← Data.get_products dat;
      collect_products rest (prods ++ ps)
  end.

Definition get_products (self : t) (date : Date) : result (list string) :=
  by_sensor ← getitem (data self) date;
  prods ← collect_products (map_to_list by_sensor) [];
  Ok (sorted_strs prods).

(** [printcalendar], lines 237 to 244: the text written for a date. *)
Definition daystr (md : bool) (date : Date) : string :=
  if md then String.append (str (month date)) (String.append "-" (str (day date)))
  else
    let daystr := str (day_of_year date) in
    if Nat.eqb (String.length daystr) 1 then String.append "00" daystr
    else if Nat.eqb (String.length daystr) 2 then String.append "0" daystr
    else daystr.

(** [printcalendar], lines 248 and 249: the colour given to every sensor
    name. *)
Fixpoint colors_loop (i : nat) (names : list string)
    (colors : gmap string string) : result (gmap string string) :=
  match names with
  | [] => Ok colors
  | s :: rest =>
      c ← index _colororder i;
      colors_loop (S i) rest (<[s := c]> colors)
  end.

Definition colors (self : t) : result (gmap string string) :=
  colors_loop 0 (Data.sensor_names (attrs (dataclass self))) ∅.

(** [legend]: the lines printed, and the outcome. *)
Fixpoint legend_loop (i : nat) (sensors : list string) (out : list string)
    : list string * result unit :=
  match sensors with
  | [] => (out, Ok tt)
  | s :: rest =>
      match index _colororder i ≫= _colorize s with
      | Ok line => legend_loop (S i) rest (out ++ [line])
      | Raise e => (out, Raise e)
      end
  end.

Definition legend (self : t) : list string * result unit :=
  legend_loop 0 (sorted_strs (map_to_list (sensors (attrs (dataclass self)))).*2) [].

End DataInventory.
End DataInventory.

(** ** Processing through the external Processor

    [DataInventory.process] calls the method [process] of the data sets
    (line 203).  [core.py] does not define that method: [Data] has none,
    the classes of the sensors, outside this file, bring it.  What the
    method does with the Processor is taken from the specification. *)

Module Processing.
Section Processing.
Context `{Ext : Externals}.

(** Modelled from the spec: the external Processor (section 6), missing from
    [core.py]: [process(tile_dataset, product_list, overwrite, suffix,
    generate_overviews) -> updated product mapping | failure]. *)
Definition Processor : Type :=
  Data.t -> list string -> bool -> string -> bool ->
  option (gmap string (gmap string (gmap string string))).

(** Modelled from the spec: a product is already present for a data set when
    its file exists for all tiles of the data set, that is when the product
    mapping of every tile holds it (sections 4.3 and 8); [core.py] has no
    such test. *)
Definition present (self : Data.t) (product : string) : bool :=
  forallb (fun te : string * gmap string (gmap string string) =>
             match te.2 !! "products" with
             | Some prods => bool_decide (is_Some (prods !! product))
             | None => false
             end)
          (map_to_list (Data.tiles self)).

(** Modelled from the spec: the products for which the method [process] of a
    data set, missing from [core.py], turns to the Processor: each requested
    product not already present, unless [overwrite] (section 4.3). *)
Definition requested (self : Data.t) (products : list string)
    (overwrite : bool) : list string :=
  if overwrite then products
  else List.filter (fun p => negb (present self p)) products.

(** Modelled from the spec: the method [process] of a data set
    ([TileDataset.process], section 4.3), missing from [core.py].  It
    delegates to the Processor for the requested products not already
    present (unless [overwrite]) and records the files made in the product
    mapping of the tiles; after a failure the mapping is left as it was
    (section 7).  The result holds the product lists handed to the
    Processor, in order, and the data set afterwards. *)
Definition TileDataset_process (P : Processor) (self : Data.t)
    (products : list string) (overwrite : bool) (suffix : string)
    (overviews : bool) : list (list string) * result Data.t :=
  match requested self products overwrite with
  | [] => ([], Ok self)
  | todo =>
      ([todo],
       Ok match P self todo overwrite suffix overviews with
          | Some mapping =>
              {| Data.site := Data.site self;
                 Data.tile_coverage := Data.tile_coverage self;
                 Data.tiles := mapping;
                 Data.date := Data.date self;
                 Data.products := Data.products self;
                 Data.sensor := Data.sensor self |}
          | None => self
          end)
  end.

(** An invocation of the Processor: the date and the sensor of the data set
    that made it, and the product list handed over. *)
Record invocation : Type := mkInvocation {
  inv_date : Date;
  inv_sensor : string;
  inv_products : list string
}.

(** [DataInventory.process] (lines 197 to 205), where the method of the data
    sets is a function [run] that reports, beside its outcome, the product
    lists it hands to the Processor: the invocations made, in order, and the
    outcome. *)
Fixpoint process_sensors
    (run : Data.t -> list string -> bool -> string -> bool ->
           list (list string) * result Data.t)
    (self : DataInventory.t) (date : Date) (sensors : list string)
    (products : list string) (overwrite : bool) (suffix : string)
    (overviews : bool) (trace : list invocation)
    : list invocation * result DataInventory.t :=
  match sensors with
  | [] => (trace, Ok self)
  | sensor :: rest =>
      match getitem (DataInventory.data self) date
            ≫= fun d => getitem d sensor with
      | Raise e => (trace, Raise e)
      | Ok dat =>
          let made := run dat products overwrite suffix overviews in
          let trace := trace ++ (mkInvocation date sensor <$> made.1) in
          match made.2 with
          | Raise e => (trace, Raise e)
          | Ok dat =>
              let self :=
                {| DataInventory.dataclass := DataInventory.dataclass self;
                   DataInventory.site := DataInventory.site self;
                   DataInventory.tiles := DataInventory.tiles self;
                   DataInventory.start_date := DataInventory.start_date self;
                   DataInventory.end_date := DataInventory.end_date self;
                   DataInventory.start_day := DataInventory.start_day self;
                   DataInventory.end_day := DataInventory.end_day self;
                   DataInventory.numfiles := DataInventory.numfiles self;
                   DataInventory.data :=
                     alter (insert sensor dat) date (DataInventory.data self) |} in
              process_sensors run self date rest products overwrite suffix
                overviews trace
          end
      end
  end.

Fixpoint process_dates
    (run : Data.t -> list string -> bool -> string -> bool ->
           list (list string) * result Data.t)
    (self : DataInventory.t) (dates : list Date)
    (products : list string) (overwrite : bool) (suffix : string)
    (overviews : bool) (trace : list invocation)
    : list invocation * result DataInventory.t :=
  match dates with
  | [] => (trace, Ok self)
  | date :: rest =>
      match getitem (DataInventory.data self) date with
      | Raise e => (trace, Raise e)
      | Ok by_sensor =>
          match process_sensors run self date (map_to_list by_sensor).*1
                  products overwrite suffix overviews trace with
          | (trace, Ok self) =>
              process_dates run self rest products overwrite suffix overviews
                trace
          | (trace, Raise e) => (trace, Raise e)
          end
      end
  end.

Definition process
    (run : Data.t -> list string -> bool -> string -> bool ->
           list (list string) * result Data.t)
    (self : DataInventory.t) (products : list string) (overwrite : bool)
    (suffix : string) (overviews : bool)
    : list invocation * result DataInventory.t :=
  process_dates run self (DataInventory.dates self) products overwrite suffix
    overviews [].

End Processing.
End Processing.

(** ** A concrete world to run the code in

    Geometries are axis-parallel rectangles with integer corners, the file
    system is a table from directory paths to their entries, and dates are
    parsed from seven digits (year, day of the year) or from
    [YYYY-MM-DD]. *)

Module Fixture.

Record rect : Type := mkrect { xmin : Z; ymin : Z; xmax : Z; ymax : Z }.

Definition rect_area (r : rect) : Q :=
  inject_Z ((xmax r - xmin r) * (ymax r - ymin r)).

Definition rect_intersection_area (r s : rect) : Q :=
  inject_Z (Z.max 0 (Z.min (xmax r) (xmax s) - Z.max (xmin r) (xmin s))
            * Z.max 0 (Z.min (ymax r) (ymax s) - Z.max (ymin r) (ymin s))).

(** The envelopes meet (a common edge or corner counts). *)
Definition rect_meets (r s : rect) : bool :=
  ((xmin r <=? xmax s) && (xmin s <=? xmax r)
   && (ymin r <=? ymax s) && (ymin s <=? ymax r))%bool.

Definition lookup_table {A : Type} (tbl : list (string * A)) (k : string)
    : result A :=
  match List.find (fun kv => String.eqb (fst kv) k) tbl with
  | Some kv => Ok (snd kv)
  | None => Raise OSError
  end.

Definition date_of_yday (y j : Z) : Date :=
  let m := List.last
             (List.filter (fun m => days_before_month y m <? j)
                          [1; 2; 3; 4; 5; 6; 7; 8; 9; 10; 11; 12]) 1 in
  mkdate y m (j - days_before_month y m).

Definition parse_Yj (s : string) : result Date :=
  if Nat.eqb (String.length s) 7 then
    y ← int (substring 0 4 s);
    j ← int (substring 4 3 s);
    if ((1 <=? j) && (j <=? (if is_leap y then 366 else 365)))%bool
    then Ok (date_of_yday y j)
    else Raise ValueError
  else Raise ValueError.

Definition parse_ymd (last_day : bool) (s : string) : result Date :=
  match split "-" s with
  | [y] =>
      y ← int y;
      Ok (if last_day then mkdate y 12 31 else mkdate y 1 1)
  | [y; m; d] =>
      y ← int y; m ← int m; d ← int d; Ok (mkdate y m d)
  | _ => Raise ValueError
  end.

Definition parse_range (s : string) : result (Date * Date) :=
  match split "," s with
  | [a; b] =>
      a ← parse_ymd false a; b ← parse_ymd true b; Ok (a, b)
  | _ => Raise ValueError
  end.

(** The world: vector files and directories by name. *)
Definition world (vectors : list (string * rect))
    (dirs : list (string * list string)) : Externals :=
  {| Vector := rect;
     Geom := rect;
     GeoVector := lookup_table vectors;
     union := fun v => Ok v;
     transform := fun _ g => Ok g;
     geom_area := rect_area;
     intersection_area := rect_intersection_area;
     spatial_filter := rect_meets;
     listdir := lookup_table dirs;
     strptime_Yj := parse_Yj;
     dateparse_range := parse_range |}.

(** A region of area 300; two tiles inside it (areas 100 and 50), one
    that shares an edge with it and one away from it. *)
Definition region : rect := mkrect 0 0 30 10.

Definition vectors : list (string * rect) := [("site.shp", region)].

Definition dirs : list (string * list string) :=
  [("/data", ["000123"; "000124"]);
   ("/data/000123", ["2020045"; "2020150"; "2019020"]);
   ("/data/000124", ["2020045"; "2020060"])].

#[export] Instance ext : Externals := world vectors dirs.

Definition grid : list Feature :=
  [mkFeature "000123" (mkrect 0 0 10 10);
   mkFeature "000124" (mkrect 10 0 15 10);
   mkFeature "000125" (mkrect 30 0 40 10);
   mkFeature "000126" (mkrect 50 0 60 10)].

Definition cls : ClassAttrs :=
  {| name := "Fixture"; sensors := {["S" := "Sensor"]};
     rootdir := "/data"; tiles_layer := Ok grid |}.

(** A subclass of [Data]: its constructor sets [sensor] and finds the
    products named in [found] for every tile; its [process] adds the
    requested products to every tile. *)
Definition sub_new (found : gmap string string) (site : option string)
    (tiles : option tiles_arg) (date : option Date)
    (products : option (list string)) : result Data.t :=
  self ← Data.init cls site tiles date products;
  Ok {| Data.site := Data.site self;
        Data.tile_coverage := Data.tile_coverage self;
        Data.tiles := (fun _ => {["products" := found]}) <$> Data.tiles self;
        Data.date := Data.date self;
        Data.products := Data.products self;
        Data.sensor := Some "S" |}.

Definition sub_process (self : Data.t) (products : list string)
    (overwrite : bool) (suffix : string) (overviews : bool)
    : result Data.t := Ok self.

Definition subclass (found : gmap string string) : DataClass :=
  {| attrs := cls; new := sub_new found; process_data := sub_process |}.

(** A region away from every tile of the grid. *)
Definition far_region : rect := mkrect 100 100 110 110.

(** A layer whose only tile has an identifier of four characters. *)
Definition short_cls : ClassAttrs :=
  {| name := "Short"; sensors := ∅; rootdir := "/data";
     tiles_layer := Ok [mkFeature "1234" (mkrect 0 0 10 10)] |}.

(** A data set with two tiles and their products. *)
Definition two_tiles : Data.t :=
  {| Data.site := None;
     Data.tile_coverage := {["000123" := 1%Q; "000124" := 1%Q]};
     Data.tiles :=
       {["000123" := {["products" := {["toaref" := "/data/000123/toaref.tif";
                                       "ndvi" := "/data/000123/ndvi.tif"]}]};
         "000124" := {["products" := {["toaref" := "/data/000124/toaref.tif"]}]}]};
     Data.date := Some (mkdate 2020 2 14);
     Data.products := ∅;
     Data.sensor := Some "S" |}.

(** An inventory object before [temporal_extent] and [AddData]. *)
Definition blank : DataInventory.t :=
  {| DataInventory.dataclass := subclass ∅;
     DataInventory.site := None;
     DataInventory.tiles := Some (TileList ["000123"; "000124"]);
     DataInventory.start_date := mkdate 1 1 1;
     DataInventory.end_date := mkdate 1 1 1;
     DataInventory.start_day := 0; DataInventory.end_day := 0;
     DataInventory.numfiles := 0; DataInventory.data := ∅ |}.

(** The inventory of the two tiles for the first 90 days of 2020, built by
    a class that finds [found] as the products of every tile. *)
Definition inventory (found : gmap string string) : result DataInventory.t :=
  DataInventory.init (subclass found) None
    (Some (TileList ["000123"; "000124"]))
    (Some "2020-01-01,2020-12-31") (Some "1,90") None.

(** The layer of [grid] read in the opposite order. *)
Definition cls_rev : ClassAttrs :=
  {| name := "Fixture"; sensors := {["S" := "Sensor"]};
     rootdir := "/data"; tiles_layer := Ok (rev grid) |}.

(** A layer in which two tiles get the same key: ["12345"] is padded to
    the identifier of the other tile. *)
Definition clash_grid : list Feature :=
  [mkFeature "12345" (mkrect 0 0 10 10);
   mkFeature "012345" (mkrect 10 0 15 10)].

Definition clash_cls : ClassAttrs :=
  {| name := "Clash"; sensors := ∅; rootdir := "/data";
     tiles_layer := Ok clash_grid |}.

(** An inventory object after [temporal_extent], with the year 2020 as
    date range and the given day range, before [AddData]. *)
Definition with_days (site : option string) (tiles : option tiles_arg)
    (start_day end_day : Z) : DataInventory.t :=
  {| DataInventory.dataclass := subclass ∅;
     DataInventory.site := site;
     DataInventory.tiles := tiles;
     DataInventory.start_date := mkdate 2020 1 1;
     DataInventory.end_date := mkdate 2020 12 31;
     DataInventory.start_day := start_day;
     DataInventory.end_day := end_day;
     DataInventory.numfiles := 0; DataInventory.data := ∅ |}.

Definition extent : DataInventory.t :=
  with_days None (Some (TileList ["000123"; "000124"])) 1 90.

(** The day range 90 to 1, and a day range that holds none of the days of
    [dirs]. *)
Definition inverted : DataInventory.t :=
  with_days None (Some (TileList ["000123"; "000124"])) 90 1.

Definition late : DataInventory.t :=
  with_days None (Some (TileList ["000123"; "000124"])) 200 300.

(** An inventory for a site, without tiles. *)
Definition by_site : DataInventory.t := with_days (Some "site.shp") None 1 90.

(** An inventory that holds the data set [two_tiles] for two dates. *)
Definition stock : DataInventory.t :=
  {| DataInventory.dataclass := subclass ∅;
     DataInventory.site := None;
     DataInventory.tiles := Some (TileList ["000123"; "000124"]);
     DataInventory.start_date := mkdate 2020 1 1;
     DataInventory.end_date := mkdate 2020 12 31;
     DataInventory.start_day := 1; DataInventory.end_day := 90;
     DataInventory.numfiles := 4;
     DataInventory.data :=
       {[mkdate 2020 2 14 := {["S" := two_tiles]};
         mkdate 2020 2 29 := {["S" := two_tiles]}]} |}.

(** A Processor that makes every product it is asked for, for every tile. *)
Definition stub : Processing.Processor :=
  fun self todo _ _ _ =>
    Some ((fun entry : gmap string (gmap string string) =>
             <["products" :=
                 foldl (fun prods p => <[p := String.append p ".tif"]> prods)
                       (default ∅ (entry !! "products")) todo]> entry)
          <$> Data.tiles self).

End Fixture.

(** * Properties *)

(** ** The orders used by [sorted] *)

Ltac date_order :=
  unfold date_le, date_leb in *;
  repeat match goal with d : Date |- _ => destruct d end;
  cbn [year month day] in *;
  repeat match goal with
         | H : _ /\ _ |- _ => destruct H
         | H : context [(_ || _)%bool = true] |- _ => rewrite orb_true_iff in H
         | H : context [(_ && _)%bool = true] |- _ => rewrite andb_true_iff in H
         | H : context [(_ <? _) = true] |- _ => rewrite Z.ltb_lt in H
         | H : context [(_ <=? _) = true] |- _ => rewrite Z.leb_le in H
         | H : context [(_ =? _) = true] |- _ => rewrite Z.eqb_eq in H
         end;
  rewrite ?orb_true_iff, ?andb_true_iff, ?Z.ltb_lt, ?Z.leb_le, ?Z.eqb_eq.

#[global] Instance date_le_refl : Reflexive date_le.
Proof. intros x. date_order. lia. Qed.

#[global] Instance date_le_trans : Transitive date_le.
Proof. intros x y z Hxy Hyz. date_order. lia. Qed.

#[global] Instance date_le_total : Total date_le.
Proof. intros x y. date_order. lia. Qed.

#[global] Instance date_le_antisym : AntiSymm (=) date_le.
Proof.
  intros x y Hxy Hyx. date_order.
  assert (year0 = year1 /\ month0 = month1 /\ day0 = day1) as (-> & -> & ->) by lia.
  reflexivity.
Qed.

Lemma string_compare_refl (s : string) : String.compare s s = Eq.
Proof.
  induction s as [|c s IH]; [reflexivity|].
  cbn. unfold Ascii.compare. rewrite N.compare_refl. exact IH.
Qed.

Lemma string_compare_not_Gt_trans (a b c : string) :
  String.compare a b <> Gt -> String.compare b c <> Gt ->
  String.compare a c <> Gt.
Proof.
  revert b c. induction a as [|x a IH]; intros [|y b] [|z c]; cbn; try congruence.
  unfold Ascii.compare.
  destruct (N.compare_spec (N_of_ascii x) (N_of_ascii y)) as [Hxy|Hxy|Hxy];
    destruct (N.compare_spec (N_of_ascii y) (N_of_ascii z)) as [Hyz|Hyz|Hyz];
    destruct (N.compare_spec (N_of_ascii x) (N_of_ascii z)) as [Hxz|Hxz|Hxz];
    try congruence; try (exfalso; lia); intros; eauto.
Qed.

#[global] Instance str_le_refl : Reflexive str_le.
Proof. intros s. unfold str_le, String.leb. by rewrite string_compare_refl. Qed.

#[global] Instance str_le_trans : Transitive str_le.
Proof.
  intros a b c. unfold str_le, String.leb. intros Hab Hbc.
  pose proof (string_compare_not_Gt_trans a b c) as H.
  destruct (String.compare a b), (String.compare b c), (String.compare a c);
    try reflexivity; try discriminate; exfalso; apply H; congruence.
Qed.

#[global] Instance str_le_total : Total str_le.
Proof. intros a b. apply String.leb_total. Qed.

#[global] Instance str_le_antisym : AntiSymm (=) str_le.
Proof. intros a b. apply String.leb_antisym. Qed.

(** [sorted] returns its argument in ascending order; without repeated
    elements the order is strict. *)
Section Sorting.
Context {A : Type} (R : relation A).
Context `{!forall x y, Decision (R x y)}.
Context `{!Transitive R, !Total R, !AntiSymm (=) R}.

Lemma StronglySorted_NoDup_strict (l : list A) :
  StronglySorted R l -> NoDup l -> StronglySorted (strictly R) l.
Proof.
  induction 1 as [|x l Hl IH Hx]; intros Hnd; [constructor|].
  apply NoDup_cons in Hnd as [Hnotin Hnd].
  constructor; [by apply IH|].
  rewrite Forall_forall in *. intros y Hy. split; [by apply Hx|].
  intros ->. by apply Hnotin.
Qed.

Lemma merge_sort_strict (l : list A) :
  NoDup l -> StronglySorted (strictly R) (merge_sort R l).
Proof.
  intros Hnd. apply StronglySorted_NoDup_strict.
  - by apply StronglySorted_merge_sort.
  - by rewrite merge_sort_Permutation.
Qed.

Lemma elem_of_merge_sort (x : A) (l : list A) : x ∈ merge_sort R l <-> x ∈ l.
Proof. by rewrite merge_sort_Permutation. Qed.
End Sorting.

(** ** Data: construction, product lookup, product listing *)

Section DataProperties.
Context `{Ext : Externals}.

Lemma getitem_Ok {K V : Type} `{Countable K} (d : gmap K V) (k : K) (v : V) :
  getitem d k = Ok v <-> d !! k = Some v.
Proof. unfold getitem. destruct (d !! k); split; congruence. Qed.

Lemma getitem_Raise {K V : Type} `{Countable K} (d : gmap K V) (k : K) (e : exn) :
  getitem d k = Raise e -> d !! k = None /\ e = KeyError.
Proof. unfold getitem. destruct (d !! k); intros; split; congruence. Qed.

(** The dict built by [for t in keys: d[t] = v] holds exactly the keys. *)
Lemma lookup_foldl_insert {V : Type} (v : V) (keys : list string)
    (d : gmap string V) (k : string) :
  foldl (fun d t => <[t := v]> d) d keys !! k
  = if bool_decide (k ∈ keys) then Some v else d !! k.
Proof.
  revert d. induction keys as [|t keys IH]; intros d; cbn [foldl].
  - by rewrite bool_decide_eq_false_2 by apply not_elem_of_nil.
  - rewrite IH. destruct (decide (k ∈ keys)) as [Hin|Hin].
    + rewrite !bool_decide_eq_true_2; [done | by right | done].
    + rewrite (bool_decide_eq_false_2 _ Hin).
      destruct (decide (k = t)) as [->|Hne].
      * rewrite lookup_insert_eq, bool_decide_eq_true_2; [done | by left].
      * rewrite lookup_insert_ne by done.
        rewrite bool_decide_eq_false_2; [done|].
        intros [->|?]%elem_of_cons; done.
Qed.

(** Right after [Data.__init__] every tile has the empty dict. *)
Lemma init_tiles_empty (cls : ClassAttrs) site tiles date products self t entry :
  Data.init cls site tiles date products = Ok self ->
  Data.tiles self !! t = Some entry -> entry = ∅.
Proof.
  unfold Data.init. intros Hinit Hlook.
  destruct (match tiles with Some _ => _ | None => _ end) as [cov|e];
    cbn in Hinit; [|discriminate].
  injection Hinit as <-. cbn in Hlook.
  rewrite lookup_foldl_insert in Hlook.
  case_bool_decide; [congruence|]. by rewrite lookup_empty in Hlook.
Qed.

Lemma extend_products_spec
    (entries : list (string * gmap string (gmap string string)))
    (acc : list string) :
  Forall (fun te => is_Some (te.2 !! "products")) entries ->
  exists l, Data.extend_products entries acc = Ok l
    /\ forall p, p ∈ l <->
         p ∈ acc \/ exists t e ps, (t, e) ∈ entries
                      /\ e !! "products" = Some ps /\ is_Some (ps !! p).
Proof.
  intros Hall. revert acc.
  induction Hall as [|[t e] entries [ps Hps] _ IH]; intros acc; cbn.
  - exists acc. split; [done|]. intros p. split; [by left|].
    intros [?|(? & ? & ? & []%elem_of_nil & _)]; done.
  - unfold getitem. cbn in Hps. rewrite Hps. cbn.
    destruct (IH (acc ++ (map_to_list ps).*1)) as (l & -> & Hl).
    exists l. split; [done|]. intros p. rewrite Hl, elem_of_app.
    split.
    + intros [[Hacc|Hkey]|(t' & e' & ps' & Hin & He & Hp)].
      * by left.
      * right. exists t, e, ps. split; [by left|]. split; [done|].
        apply list_elem_of_fmap in Hkey as ([k v] & -> & Hkv).
        apply elem_of_map_to_list in Hkv. cbn. by rewrite Hkv.
      * right. exists t', e', ps'. split; [by right|]. done.
    + intros [Hacc|(t' & e' & ps' & Hin & He & [v Hp])].
      * by left; left.
      * apply elem_of_cons in Hin as [Heq|Hin].
        -- injection Heq as -> ->. rewrite Hps in He. injection He as <-.
           left; right. apply list_elem_of_fmap. exists (p, v).
           split; [done|]. by apply elem_of_map_to_list.
        -- right. exists t', e', ps'. split; [done|]. split; [done|]. by exists v.
Qed.

(** C10. Whenever [Data] is constructed with a site and without tiles, the
    constructor raises [NameError] (the name [cls] is not defined in
    [__init__]): whatever the vector file, the tile layer and the file
    system are, no tile coverage is computed and no data set is built. *)
Theorem init_site_without_tiles_NameError
    (cls : ClassAttrs) (site : string) (date : option Date)
    (products : option (list string)) :
  Data.init cls (Some site) None date products = Raise NameError.
Proof. reflexivity. Qed.

(** C3 (the code departs from the claim). A data set whose mosaic products
    hold the product ["toaref"]: [filename("toaref")] without a tile does
    not return its path but raises [KeyError], because the dict is read at
    the literal key ["product"]. *)
Theorem filename_mosaic_reads_literal_key :
  let self :=
    {| Data.site := None; Data.tile_coverage := ∅; Data.tiles := ∅;
       Data.date := None;
       Data.products := {["toaref" := "/data/toaref_mosaic.tif"]};
       Data.sensor := None |} in
  Data.products self !! "toaref" = Some "/data/toaref_mosaic.tif"
  /\ Data.filename self "toaref" None = Raise KeyError.
Proof. split; reflexivity. Qed.

(** With a tile, [filename] is the lookup the claim describes. *)
Lemma filename_tile (self : Data.t) (product tile f : string) :
  Data.filename self product (Some tile) = Ok f <->
  exists entry prods, Data.tiles self !! tile = Some entry
    /\ entry !! "products" = Some prods /\ prods !! product = Some f.
Proof.
  unfold Data.filename, getitem. split.
  - destruct (Data.tiles self !! tile) as [entry|] eqn:Ht; cbn; [|done].
    destruct (entry !! "products") as [prods|] eqn:He; cbn; [|done].
    destruct (prods !! product) eqn:Hp; [|done].
    intros [= <-]. by exists entry, prods.
  - intros (entry & prods & -> & He & Hp). cbn. rewrite He. cbn. by rewrite Hp.
Qed.

(** C7 (amended). For a data set in which every tile has a ["products"]
    dict, [get_products] returns, without raising, the list of the product
    keys of all tiles, in strictly ascending lexicographic order: a product
    is listed exactly when some tile has it. *)
Theorem get_products_sorted_union (self : Data.t) :
  (forall t entry, Data.tiles self !! t = Some entry ->
                   is_Some (entry !! "products")) ->
  exists l, Data.get_products self = Ok l
    /\ StronglySorted (strictly str_le) l
    /\ forall p, p ∈ l <->
         exists t entry prods, Data.tiles self !! t = Some entry
           /\ entry !! "products" = Some prods /\ is_Some (prods !! p).
Proof.
  intros Hall. unfold Data.get_products.
  destruct (extend_products_spec (map_to_list (Data.tiles self)) [])
    as (l & -> & Hl).
  { apply Forall_forall. intros [t e] Hin. cbn.
    apply elem_of_map_to_list in Hin. eauto. }
  cbn. eexists. split; [done|]. split.
  - unfold sorted_strs. apply merge_sort_strict; try apply _. apply NoDup_elements.
  - intros p. unfold sorted_strs.
    rewrite elem_of_merge_sort, elem_of_elements, elem_of_list_to_set, Hl.
    split.
    + intros [[]%elem_of_nil|(t & e & ps & Hin & He & Hp)].
      exists t, e, ps. by apply elem_of_map_to_list in Hin.
    + intros (t & e & ps & Hin & He & Hp). right.
      exists t, e, ps. by apply elem_of_map_to_list in Hin.
Qed.

End DataProperties.

(** ** Data.vector2tiles: the coverage map *)

Section CoverageProperties.
Context `{Ext : Externals}.
Variable geom : Geom.

(** An entry of the result was in the dict before the loop or was written
    for a feature with a non-zero intersection. *)
Lemma vector2tiles_loop_lookup (feats : list Feature) (acc tiles : gmap string Q) :
  Data.vector2tiles_loop geom feats acc = Ok tiles ->
  forall k w, tiles !! k = Some w ->
    acc !! k = Some w
    \/ exists f, f ∈ feats /\ Data.tile_id f = k /\ ~ Qeq (intersection_area geom (geometry f)) 0
         /\ w = Qdiv (intersection_area geom (geometry f)) (geom_area geom).
Proof.
  revert acc. induction feats as [|feat rest IH]; intros acc; cbn.
  - intros [= <-] k w Hk. by left.
  - destruct (Qeq_bool (intersection_area geom (geometry feat)) 0) eqn:Harea; cbn.
    + intros Hloop k w Hk. destruct (IH _ Hloop k w Hk) as [?|(f & ? & ?)];
        [by left|]. right. exists f. split; [by right|done].
    + destruct (Qeq_bool (geom_area geom) 0); [done|].
      intros Hloop k w Hk.
      destruct (IH _ Hloop k w Hk) as [Hacc|(f & ? & ?)].
      * destruct (decide (Data.tile_id feat = k)) as [Heq|Hne].
        -- rewrite Heq, lookup_insert_eq in Hacc. injection Hacc as <-.
           right. exists feat. split; [by left|]. split; [done|].
           split; [by apply Qeq_bool_neq|done].
        -- rewrite lookup_insert_ne in Hacc by done. by left.
      * right. exists f. split; [by right|done].
Qed.

(** A key that no feature with a non-zero intersection has is not added. *)
Lemma vector2tiles_loop_absent (feats : list Feature) (acc tiles : gmap string Q)
    (k : string) :
  Data.vector2tiles_loop geom feats acc = Ok tiles ->
  acc !! k = None ->
  (forall f, f ∈ feats -> Data.tile_id f = k -> Qeq (intersection_area geom (geometry f)) 0) ->
  tiles !! k = None.
Proof.
  intros Hloop Hacc Hzero.
  destruct (tiles !! k) as [w|] eqn:Hk; [|done].
  destruct (vector2tiles_loop_lookup _ _ _ Hloop k w Hk)
    as [?|(f & Hin & Hid & Hnz & _)]; [congruence|].
  destruct Hnz. by apply Hzero.
Qed.

(** A key of the dict stays one, and every feature with a non-zero
    intersection gets its key. *)
Lemma vector2tiles_loop_keeps (feats : list Feature) (acc tiles : gmap string Q)
    (k : string) :
  Data.vector2tiles_loop geom feats acc = Ok tiles ->
  is_Some (acc !! k) -> is_Some (tiles !! k).
Proof.
  revert acc. induction feats as [|feat rest IH]; intros acc; cbn.
  - by intros [= <-].
  - destruct (Qeq_bool (intersection_area geom (geometry feat)) 0); cbn; [by apply IH|].
    destruct (Qeq_bool (geom_area geom) 0); [done|].
    intros Hloop Hk. apply (IH _ Hloop).
    destruct (decide (Data.tile_id feat = k)) as [->|Hne].
    + by rewrite lookup_insert_eq.
    + by rewrite lookup_insert_ne.
Qed.

Lemma vector2tiles_loop_present (feats : list Feature) (acc tiles : gmap string Q)
    (f : Feature) :
  Data.vector2tiles_loop geom feats acc = Ok tiles ->
  f ∈ feats -> ~ Qeq (intersection_area geom (geometry f)) 0 -> is_Some (tiles !! Data.tile_id f).
Proof.
  revert acc. induction feats as [|feat rest IH]; intros acc; cbn.
  - by intros _ ?%elem_of_nil.
  - intros Hloop Hin Hnz. apply elem_of_cons in Hin as [->|Hin].
    + destruct (Qeq_bool (intersection_area geom (geometry feat)) 0) eqn:Harea; cbn in Hloop.
      { by apply Qeq_bool_iff in Harea. }
      destruct (Qeq_bool (geom_area geom) 0); [done|].
      apply (vector2tiles_loop_keeps _ _ _ _ Hloop).
      by rewrite lookup_insert_eq.
    + destruct (Qeq_bool (intersection_area geom (geometry feat)) 0); cbn in Hloop; [by eapply IH|].
      destruct (Qeq_bool (geom_area geom) 0); [done|]. by eapply IH.
Qed.

(** With a non-degenerate region the loop does not raise. *)
Lemma vector2tiles_loop_total (feats : list Feature) (acc : gmap string Q) :
  ~ Qeq (geom_area geom) 0 ->
  exists tiles, Data.vector2tiles_loop geom feats acc = Ok tiles.
Proof.
  intros Hnd. revert acc. induction feats as [|feat rest IH]; intros acc; cbn.
  - by eexists.
  - destruct (Qeq_bool (intersection_area geom (geometry feat)) 0); cbn; [done|].
    destruct (Qeq_bool (geom_area geom) 0) eqn:Hg; [|done].
    by apply Qeq_bool_iff in Hg.
Qed.

End CoverageProperties.

Lemma NoDup_fmap_inj_on {A B : Type} (f : A -> B) (l : list A) (x y : A) :
  NoDup (f <$> l) -> x ∈ l -> y ∈ l -> f x = f y -> x = y.
Proof.
  induction l as [|a l IH]; cbn; [by intros _ ?%elem_of_nil|].
  intros [Hnotin Hnd]%NoDup_cons [->|Hx]%elem_of_cons [->|Hy]%elem_of_cons Heq;
    [done| | |by apply IH].
  - destruct Hnotin. rewrite Heq. by apply list_elem_of_fmap_2.
  - destruct Hnotin. rewrite <- Heq. by apply list_elem_of_fmap_2.
Qed.

Lemma elem_of_List_filter {A : Type} (p : A -> bool) (l : list A) (x : A) :
  x ∈ List.filter p l <-> x ∈ l /\ p x = true.
Proof. rewrite !list_elem_of_In. apply filter_In. Qed.

(** [vector2tiles] on a layer in which no feature passes the spatial
    filter: the first [GetNextFeature()] is [None]. *)
Lemma vector2tiles_no_feature `{Ext : Externals} (cls : ClassAttrs)
    (vector : Vector) (g0 geom : Geom) (tlayer : list Feature) :
  union vector = Ok g0 -> tiles_layer cls = Ok tlayer ->
  transform vector g0 = Ok geom ->
  (forall f, f ∈ tlayer -> spatial_filter geom (geometry f) = false) ->
  Data.vector2tiles cls vector = Raise AttributeError.
Proof.
  intros Hu Hl Ht Hnone. unfold Data.vector2tiles. rewrite Hu. cbn.
  rewrite Hl. cbn. rewrite Ht. cbn.
  destruct (List.filter _ tlayer) as [|f fs] eqn:Hf; [done|].
  assert (f ∈ List.filter (fun f => spatial_filter geom (geometry f)) tlayer)
    as [Hin Hpass]%elem_of_List_filter by (rewrite Hf; by left).
  rewrite (Hnone f Hin) in Hpass. done.
Qed.

(** C1. Let the region be non-degenerate, let all intersection areas be
    non-negative and let the tiles of the grid have distinct identifiers.
    If some tile passes the spatial filter, [vector2tiles] returns a
    coverage map; and in every map it returns, each key is the identifier
    of a tile of the grid whose intersection with the region has an area
    greater than zero, its weight is that area divided by the area of the
    region, and no tile with a zero intersection area has its identifier
    in the map. *)
Theorem vector2tiles_coverage `{Ext : Externals} (cls : ClassAttrs)
    (vector : Vector) (g0 geom : Geom) (tlayer : list Feature) :
  union vector = Ok g0 -> tiles_layer cls = Ok tlayer ->
  transform vector g0 = Ok geom ->
  ~ Qeq (geom_area geom) 0 ->
  (forall f, f ∈ tlayer -> Qle 0 (intersection_area geom (geometry f))) ->
  NoDup (Data.tile_id <$> tlayer) ->
  ((exists f, f ∈ tlayer /\ spatial_filter geom (geometry f) = true) ->
   exists tiles, Data.vector2tiles cls vector = Ok tiles)
  /\ forall tiles, Data.vector2tiles cls vector = Ok tiles ->
       (forall k w, tiles !! k = Some w ->
          exists f, f ∈ tlayer /\ Data.tile_id f = k
            /\ Qlt 0 (intersection_area geom (geometry f))
            /\ w = Qdiv (intersection_area geom (geometry f)) (geom_area geom))
       /\ (forall f, f ∈ tlayer -> Qeq (intersection_area geom (geometry f)) 0 ->
             tiles !! Data.tile_id f = None).
Proof.
  intros Hu Hl Ht Hnd Hpos Hids. unfold Data.vector2tiles.
  rewrite Hu. cbn. rewrite Hl. cbn. rewrite Ht. cbn.
  set (feats := List.filter (fun f => spatial_filter geom (geometry f)) tlayer).
  assert (Hsub : forall f, f ∈ feats -> f ∈ tlayer)
    by (intros f Hf; by apply elem_of_List_filter in Hf as [? _]).
  split.
  - intros (f & Hin & Hpass).
    assert (Hf : f ∈ feats) by (by apply elem_of_List_filter).
    destruct feats as [|f0 fs]; [by apply elem_of_nil in Hf|].
    by apply vector2tiles_loop_total.
  - intros tiles Hloop.
    assert (Hloop' : Data.vector2tiles_loop geom feats ∅ = Ok tiles)
      by (destruct feats; [done|exact Hloop]).
    clear Hloop. split.
    + intros k w Hk.
      destruct (vector2tiles_loop_lookup geom _ _ _ Hloop' k w Hk)
        as [Hempty|(f & Hin & Hid & Hnz & Hw)];
        [by rewrite lookup_empty in Hempty|].
      exists f. split; [by apply Hsub|]. split; [done|]. split; [|done].
      destruct (Qle_lt_or_eq _ _ (Hpos f (Hsub f Hin))) as [?|Hz]; [done|].
      destruct Hnz. by symmetry.
    + intros f Hin Hzero.
      apply (vector2tiles_loop_absent geom _ _ _ _ Hloop'); [apply lookup_empty|].
      intros f' Hin' Hid.
      by rewrite (NoDup_fmap_inj_on _ _ _ _ Hids (Hsub f' Hin') Hin Hid).
Qed.

(** C8 (amended). A tile of the layer that passes the spatial filter and
    has a non-zero intersection with the region is a key of the coverage
    map: under its identifier with one ["0"] in front when the identifier
    has exactly 5 characters, under its identifier as it is otherwise. *)
Theorem vector2tiles_key `{Ext : Externals} (cls : ClassAttrs)
    (vector : Vector) (g0 geom : Geom) (tlayer : list Feature)
    (tiles : gmap string Q) (f : Feature) :
  union vector = Ok g0 -> tiles_layer cls = Ok tlayer ->
  transform vector g0 = Ok geom ->
  Data.vector2tiles cls vector = Ok tiles ->
  f ∈ tlayer -> spatial_filter geom (geometry f) = true ->
  ~ Qeq (intersection_area geom (geometry f)) 0 ->
  (String.length (tile_field f) = 5%nat ->
     is_Some (tiles !! String "0" (tile_field f)))
  /\ (String.length (tile_field f) <> 5%nat ->
        is_Some (tiles !! tile_field f)).
Proof.
  intros Hu Hl Ht. unfold Data.vector2tiles.
  rewrite Hu. cbn. rewrite Hl. cbn. rewrite Ht. cbn.
  set (feats := List.filter (fun f => spatial_filter geom (geometry f)) tlayer).
  intros Hloop Hin Hpass Hnz.
  assert (Hf : f ∈ feats) by (by apply elem_of_List_filter).
  assert (Hloop' : Data.vector2tiles_loop geom feats ∅ = Ok tiles)
    by (destruct feats; [done|exact Hloop]).
  pose proof (vector2tiles_loop_present geom _ _ _ _ Hloop' Hf Hnz) as Hkey.
  unfold Data.tile_id in Hkey. split; intros Hlen.
  - by rewrite Hlen in Hkey.
  - by apply Nat.eqb_neq in Hlen; rewrite Hlen in Hkey.
Qed.

(** *** The coverage map on the concrete world *)

Lemma get_products_sorted_union_witness :
  exists l, Data.get_products Fixture.two_tiles = Ok l
    /\ StronglySorted (strictly str_le) l
    /\ forall p, p ∈ l <->
         exists t entry prods, Data.tiles Fixture.two_tiles !! t = Some entry
           /\ entry !! "products" = Some prods /\ is_Some (prods !! p).
Proof.
  apply (get_products_sorted_union Fixture.two_tiles).
  refine (proj1 (map_Forall_lookup
                   (fun _ entry => is_Some (entry !! "products")) _) _).
  apply (bool_decide_unpack _). vm_compute. reflexivity.
Defined.

(** C7 (the claim fails). Right after [Data.__init__] on one tile,
    [get_products] raises [KeyError]: the tile has no ["products"] yet. *)
Lemma get_products_after_init_raises :
  exists self,
    Data.init (Ext := Fixture.ext) Fixture.cls None (Some (TileList ["000123"]))
      None None = Ok self
    /\ Data.get_products self = Raise KeyError.
Proof. eexists. split; [reflexivity|]. vm_compute. reflexivity. Qed.

Lemma vector2tiles_coverage_witness :
  (exists tiles, Data.vector2tiles Fixture.cls Fixture.region = Ok tiles)
  /\ forall tiles, Data.vector2tiles Fixture.cls Fixture.region = Ok tiles ->
       (forall k w, tiles !! k = Some w ->
          exists f, f ∈ Fixture.grid /\ Data.tile_id f = k
            /\ Qlt 0 (intersection_area (Externals := Fixture.ext) Fixture.region (geometry f))
            /\ w = Qdiv (intersection_area (Externals := Fixture.ext) Fixture.region (geometry f))
                        (geom_area (Externals := Fixture.ext) Fixture.region))
       /\ (forall f, f ∈ Fixture.grid ->
             Qeq (intersection_area (Externals := Fixture.ext) Fixture.region (geometry f)) 0 ->
             tiles !! Data.tile_id f = None).
Proof.
  destruct (vector2tiles_coverage (Ext := Fixture.ext) Fixture.cls
              Fixture.region Fixture.region Fixture.region Fixture.grid)
    as [Htotal Hmap].
  - reflexivity.
  - reflexivity.
  - reflexivity.
  - vm_compute. discriminate.
  - apply Forall_forall. apply (bool_decide_unpack _). vm_compute. reflexivity.
  - apply (bool_decide_unpack _). vm_compute. reflexivity.
  - split; [|exact Hmap]. apply Htotal.
    exists (mkFeature (H := Fixture.ext) "000123" (Fixture.mkrect 0 0 10 10)).
    split; [left|reflexivity].
Defined.

(** The scenario of the specification: tiles of areas 100 and 50 inside a
    region of area 300. *)
Example vector2tiles_scenario :
  Data.vector2tiles Fixture.cls Fixture.region
  = Ok {["000123" := (100 # 300)%Q; "000124" := (50 # 300)%Q]}.
Proof. vm_compute. reflexivity. Qed.

(** C6 (the code departs from the claim). For a region that meets no tile
    of the grid, [vector2tiles] does not return the empty map: it raises
    [AttributeError], the first feature read from the filtered layer being
    [None]. *)
Theorem vector2tiles_empty_region_raises :
  (forall f, f ∈ Fixture.grid ->
     spatial_filter (Externals := Fixture.ext) Fixture.far_region (geometry f) = false
     /\ Qeq (intersection_area (Externals := Fixture.ext) Fixture.far_region
                               (geometry f)) 0)
  /\ Data.vector2tiles Fixture.cls Fixture.far_region = Raise AttributeError.
Proof.
  split; [|reflexivity].
  apply Forall_forall. apply (bool_decide_unpack _). vm_compute. reflexivity.
Qed.

(** C8 (the claim fails). The tile ["1234"], four characters long, is
    filed under ["1234"]; the map has no key ["001234"]. *)
Lemma vector2tiles_short_identifier_unpadded :
  exists tiles, Data.vector2tiles Fixture.short_cls Fixture.region = Ok tiles
    /\ is_Some (tiles !! "1234") /\ tiles !! "001234" = None.
Proof.
  eexists. split; [vm_compute; reflexivity|]. split; [by eexists|reflexivity].
Qed.

Lemma vector2tiles_key_witness :
  (String.length "1234" = 5%nat ->
     is_Some (({["1234" := (100 # 300)%Q]} : gmap string Q) !! "01234"))
  /\ (String.length "1234" <> 5%nat ->
        is_Some (({["1234" := (100 # 300)%Q]} : gmap string Q) !! "1234")).
Proof.
  apply (vector2tiles_key (Ext := Fixture.ext) Fixture.short_cls
           Fixture.region Fixture.region Fixture.region
           [mkFeature (H := Fixture.ext) "1234" (Fixture.mkrect 0 0 10 10)]
           {["1234" := (100 # 300)%Q]}
           (mkFeature (H := Fixture.ext) "1234" (Fixture.mkrect 0 0 10 10))).
  - reflexivity.
  - reflexivity.
  - reflexivity.
  - vm_compute. reflexivity.
  - left.
  - reflexivity.
  - vm_compute. discriminate.
Defined.

(** ** DataInventory: the dates of an inventory *)

Section InventoryProperties.
Context `{Ext : Externals}.

Lemma bind_Ok {A B : Type} (r : result A) (k : A -> result B) (b : B) :
  r ≫= k = Ok b <-> exists a, r = Ok a /\ k a = Ok b.
Proof.
  destruct r as [a|e]; cbn; split.
  - intros Hk. by exists a.
  - by intros (a' & [= <-] & Hk).
  - done.
  - by intros (a' & ? & _).
Qed.

Lemma in_extent_spec (sd ed : Date) (d1 d2 : Z) (d : Date) :
  DataInventory.in_extent sd ed d1 d2 d = true <->
  date_le sd d /\ date_le d ed /\ d1 <= day_of_year d <= d2.
Proof.
  unfold DataInventory.in_extent, date_le.
  rewrite !andb_true_iff, !Z.leb_le. tauto.
Qed.

Lemma elem_of_add_dates (self : DataInventory.t) (found dates : list Date)
    (d : Date) :
  d ∈ DataInventory.add_dates self found dates <->
  d ∈ dates \/ (d ∈ found /\ DataInventory.within self d).
Proof.
  unfold DataInventory.within. revert dates.
  induction found as [|x found IH]; intros dates; cbn.
  - split; [by left|]. intros [?|[[]%elem_of_nil _]]; done.
  - destruct (DataInventory.in_extent _ _ _ _ x) eqn:Hx;
      [case_bool_decide as Hin|]; rewrite IH;
      rewrite ?elem_of_app, ?elem_of_cons, ?elem_of_nil;
      intuition (subst; auto; congruence).
Qed.

Lemma NoDup_add_dates (self : DataInventory.t) (found dates : list Date) :
  NoDup dates -> NoDup (DataInventory.add_dates self found dates).
Proof.
  revert dates. induction found as [|x found IH]; intros dates Hnd; cbn; [done|].
  destruct (DataInventory.in_extent _ _ _ _ x); [|by apply IH].
  case_bool_decide as Hin; [by apply IH|]. apply IH.
  apply NoDup_app. split; [done|]. split; [|apply NoDup_singleton].
  intros y Hy ->%list_elem_of_singleton. done.
Qed.

Lemma matching_dates_spec (self : DataInventory.t) (cls : ClassAttrs)
    (tiles : list string) (dates res : list Date) :
  DataInventory.matching_dates self cls tiles dates = Ok res ->
  (NoDup dates -> NoDup res)
  /\ forall d, d ∈ res <->
       d ∈ dates \/ exists t found, t ∈ tiles
                      /\ Data.find_dates cls t = Ok found
                      /\ d ∈ found /\ DataInventory.within self d.
Proof.
  revert dates. induction tiles as [|t tiles IH]; intros dates; cbn.
  - intros [= <-]. split; [done|]. intros d. split; [by left|].
    intros [?|(? & ? & []%elem_of_nil & _)]; done.
  - intros (found & Hfound & Hrest)%bind_Ok.
    destruct (IH _ Hrest) as [Hnd Hres]. split.
    + intros ?. by apply Hnd, NoDup_add_dates.
    + intros d. rewrite Hres, elem_of_add_dates. split.
      * intros [[?|[? ?]]|(t' & found' & ? & ?)]; [by left| |].
        -- right. exists t, found. split; [by left|done].
        -- right. exists t', found'. split; [by right|done].
      * intros [?|(t' & found' & [->|?]%elem_of_cons & Hf & ? & ?)].
        -- by left; left.
        -- rewrite Hfound in Hf. injection Hf as <-. by left; right.
        -- right. by exists t', found'.
Qed.

(** [add_datasets] changes [data] and [numfiles] only, and adds the dates
    to the keys of [data]. *)
Lemma add_datasets_spec (self : DataInventory.t) (dataclass : DataClass)
    (products : option (list string)) (ds : list Date) (inv : DataInventory.t) :
  DataInventory.add_datasets self dataclass products ds = Ok inv ->
  DataInventory.site inv = DataInventory.site self
  /\ DataInventory.tiles inv = DataInventory.tiles self
  /\ DataInventory.start_date inv = DataInventory.start_date self
  /\ DataInventory.end_date inv = DataInventory.end_date self
  /\ DataInventory.start_day inv = DataInventory.start_day self
  /\ DataInventory.end_day inv = DataInventory.end_day self
  /\ forall d, is_Some (DataInventory.data inv !! d) <->
       is_Some (DataInventory.data self !! d) \/ d ∈ ds.
Proof.
  revert self. induction ds as [|x ds IH]; intros self; cbn.
  - intros [= <-]. repeat (split; [done|]). intros d. split; [by left|].
    intros [?|[]%elem_of_nil]; done.
  - intros (dat & Hdat & (sensor & Hsensor & Hrest)%bind_Ok)%bind_Ok.
    destruct (IH _ Hrest) as (-> & -> & -> & -> & -> & -> & Hdata). cbn.
    repeat (split; [done|]). intros d. rewrite Hdata. cbn.
    rewrite elem_of_cons. destruct (decide (x = d)) as [->|Hne].
    + rewrite lookup_insert_eq. split; [right; by left|by left].
    + rewrite lookup_insert_ne by done. split.
      * intros [?|?]; [by left|by right; right].
      * intros [?|[->|?]]; [by left|done|by right].
Qed.

Lemma elem_of_dates (inv : DataInventory.t) (d : Date) :
  d ∈ DataInventory.dates inv <-> is_Some (DataInventory.data inv !! d).
Proof.
  unfold DataInventory.dates, sorted_dates.
  rewrite elem_of_merge_sort, list_elem_of_fmap. split.
  - intros ([d' v] & -> & Hin). apply elem_of_map_to_list in Hin. by exists v.
  - intros [v Hv]. exists (d, v). split; [done|]. by apply elem_of_map_to_list.
Qed.

Lemma dates_strictly_ascending (inv : DataInventory.t) :
  StronglySorted (strictly date_le) (DataInventory.dates inv).
Proof.
  unfold DataInventory.dates, sorted_dates.
  apply merge_sort_strict; try apply _. apply NoDup_fst_map_to_list.
Qed.

Lemma site_tiles_spec (self self1 : DataInventory.t) (dataclass : DataClass) :
  DataInventory.site_tiles self dataclass = Ok self1 ->
  DataInventory.site self1 = DataInventory.site self
  /\ DataInventory.start_date self1 = DataInventory.start_date self
  /\ DataInventory.end_date self1 = DataInventory.end_date self
  /\ DataInventory.start_day self1 = DataInventory.start_day self
  /\ DataInventory.end_day self1 = DataInventory.end_day self.
Proof.
  unfold DataInventory.site_tiles.
  destruct (DataInventory.tiles self) eqn:Ht; [by intros [= <-]|].
  destruct (DataInventory.site self) eqn:Hs; [|by intros [= <-]].
  intros (v & _ & (cover & _ & [= <-])%bind_Ok)%bind_Ok. done.
Qed.

(** What [AddData] leaves behind: the tiles it resolved, the bounds
    unchanged, and as dates those found for a tile and within the bounds. *)
Lemma AddData_spec (self inv : DataInventory.t) (dataclass : DataClass)
    (products : option (list string)) :
  DataInventory.AddData self dataclass products = Ok inv ->
  exists self1 tiles,
    DataInventory.site_tiles self dataclass = Ok self1
    /\ DataInventory.tiles self1 = Some tiles
    /\ DataInventory.tiles inv = Some tiles
    /\ DataInventory.start_date inv = DataInventory.start_date self
    /\ DataInventory.end_date inv = DataInventory.end_date self
    /\ DataInventory.start_day inv = DataInventory.start_day self
    /\ DataInventory.end_day inv = DataInventory.end_day self
    /\ forall d, d ∈ DataInventory.dates inv <->
         exists t found, t ∈ iter_tiles tiles
           /\ Data.find_dates (attrs dataclass) t = Ok found
           /\ d ∈ found /\ DataInventory.within self d.
Proof.
  unfold DataInventory.AddData.
  intros (self1 & Hself1 & (names & Hnames & (ds & Hds & Hadd)%bind_Ok)%bind_Ok)%bind_Ok.
  destruct (DataInventory.tiles self1) as [tiles|] eqn:Htiles; [|done].
  injection Hnames as <-.
  destruct (site_tiles_spec _ _ _ Hself1) as (_ & Hsd & Hed & Hs & He).
  destruct (add_datasets_spec _ _ _ _ _ Hadd)
    as (_ & Htl & Hsd' & Hed' & Hs' & He' & Hdata).
  destruct (matching_dates_spec _ _ _ _ _ Hds) as [_ Hmatch].
  exists self1, tiles. cbn in *.
  repeat (split; [congruence|]).
  intros d. rewrite elem_of_dates, Hdata. cbn. rewrite lookup_empty.
  unfold sorted_dates. rewrite elem_of_merge_sort, Hmatch.
  unfold DataInventory.within. rewrite Hsd, Hed, Hs, He. split.
  - intros [[? [=]]|[[]%elem_of_nil|?]]. done.
  - intros ?. by right; right.
Qed.

End InventoryProperties.

Section TemporalProperties.
Context `{Ext : Externals}.

Lemma parse_dates_spec (names : list string) (found : list Date) :
  Data.parse_dates names = Ok found ->
  forall d, d ∈ found <->
    exists name, name ∈ names /\ strptime_Yj (basename name) = Ok d.
Proof.
  revert found. induction names as [|n names IH]; intros found; cbn.
  - intros [= <-] d. split; [by intros ?%elem_of_nil|].
    by intros (? & ?%elem_of_nil & _).
  - intros (x & Hx & (xs & Hxs & [= <-])%bind_Ok)%bind_Ok d.
    rewrite elem_of_cons, (IH _ Hxs). split.
    + intros [->|(name & ? & ?)].
      * exists n. split; [by left|done].
      * exists name. split; [by right|done].
    + intros (name & [->|?]%elem_of_cons & Hname).
      * left. congruence.
      * right. by exists name.
Qed.

Lemma find_dates_spec (cls : ClassAttrs) (tile : string) (found : list Date) :
  Data.find_dates cls tile = Ok found ->
  exists names, listdir (Data.path cls tile "") = Ok names
    /\ forall d, d ∈ found <->
         exists name, name ∈ names /\ strptime_Yj (basename name) = Ok d.
Proof.
  unfold Data.find_dates. intros (names & Hnames & Hparse)%bind_Ok.
  exists names. split; [done|]. by apply parse_dates_spec.
Qed.

(** [temporal_extent] assigns the four bounds and nothing else. *)
Lemma temporal_extent_spec (self self1 : DataInventory.t)
    (dates days : option string) :
  DataInventory.temporal_extent self dates days = Ok self1 ->
  DataInventory.site self1 = DataInventory.site self
  /\ DataInventory.tiles self1 = DataInventory.tiles self
  /\ dateparse_range (match dates with None => "1984,2050" | Some s => s end)
     = Ok (DataInventory.start_date self1, DataInventory.end_date self1).
Proof.
  unfold DataInventory.temporal_extent.
  intros ([sd ed] & Hrange & ([a b] & _ & [= <-])%bind_Ok)%bind_Ok. done.
Qed.

(** C2. In an inventory that was constructed, [dates] is strictly
    ascending (sorted, no date twice) and holds exactly the dates that are
    parsed from the name of an entry of the directory of one of the resolved
    tiles and lie within the date bounds and, by their day of the year,
    within the day bounds; the date bounds are the parsed date range. *)
Theorem inventory_dates (dataclass : DataClass) (site : option string)
    (tiles : option tiles_arg) (dates days : option string)
    (products : option (list string)) (inv : DataInventory.t) :
  DataInventory.init dataclass site tiles dates days products = Ok inv ->
  StronglySorted (strictly date_le) (DataInventory.dates inv)
  /\ dateparse_range (match dates with None => "1984,2050" | Some s => s end)
     = Ok (DataInventory.start_date inv, DataInventory.end_date inv)
  /\ exists resolved, DataInventory.tiles inv = Some resolved
       /\ forall d, d ∈ DataInventory.dates inv <->
            (exists t names name, t ∈ iter_tiles resolved
               /\ listdir (Data.path (attrs dataclass) t "") = Ok names
               /\ name ∈ names /\ strptime_Yj (basename name) = Ok d)
            /\ date_le (DataInventory.start_date inv) d
            /\ date_le d (DataInventory.end_date inv)
            /\ DataInventory.start_day inv <= day_of_year d
               <= DataInventory.end_day inv.
Proof.
  unfold DataInventory.init. intros (self1 & Hext & Hadd)%bind_Ok.
  destruct (temporal_extent_spec _ _ _ _ Hext) as (_ & _ & Hrange).
  destruct (AddData_spec _ _ _ _ Hadd)
    as (self2 & resolved & _ & _ & Hres & Hsd & Hed & Hs & He & Hdates).
  split; [apply dates_strictly_ascending|]. split; [by rewrite Hsd, Hed|].
  exists resolved. split; [done|]. intros d. rewrite Hdates. unfold DataInventory.within.
  rewrite Hsd, Hed, Hs, He. setoid_rewrite in_extent_spec. split.
  - intros (t & found & Ht & Hfound & Hd & Hin).
    split; [|done]. apply find_dates_spec in Hfound as (names & Hnames & Hiff).
    apply Hiff in Hd as (name & ? & ?). by exists t, names, name.
  - intros [(t & names & name & Ht & Hnames & Hname & Hparse) Hin].
    assert (exists found, Data.find_dates (attrs dataclass) t = Ok found)
      as [found Hfound].
    { unfold DataInventory.AddData in Hadd.
      apply bind_Ok in Hadd as (s2 & Hs2 & Hadd).
      apply bind_Ok in Hadd as (ns & Hns & Hadd).
      apply bind_Ok in Hadd as (ds & Hds & Hadd).
      destruct (add_datasets_spec _ _ _ _ _ Hadd) as (_ & Htl & _).
      cbn in Htl. rewrite Hres in Htl. rewrite <- Htl in Hns.
      injection Hns as <-. clear - Hds Ht.
      revert Hds. generalize (@nil Date).
      induction (iter_tiles resolved) as [|t' ts IH]; intros acc;
        [by apply elem_of_nil in Ht|]. cbn.
      intros (found & Hfound & Hrest)%bind_Ok.
      apply elem_of_cons in Ht as [->|Ht]; [by exists found|by eapply IH]. }
    exists t, found. split; [done|]. split; [done|]. split; [|done].
    destruct (find_dates_spec _ _ _ Hfound) as (names' & Hnames' & Hiff).
    apply Hiff. exists name. split; [congruence|done].
Qed.

(** C9. Let the bounds be widened.  Every date that passes the test of
    the filter under the narrow bounds passes it under the wide ones; and
    when [AddData] succeeds on two inventories that differ in their bounds
    only, every date of the one with the narrow bounds is a date of the
    one with the wide bounds. *)
Theorem date_filter_monotonic (sd ed sd' ed' : Date) (d1 d2 d1' d2' : Z) :
  date_le sd' sd -> date_le ed ed' -> d1' <= d1 -> d2 <= d2' ->
  (forall d, DataInventory.in_extent sd ed d1 d2 d = true ->
             DataInventory.in_extent sd' ed' d1' d2' d = true)
  /\ forall (self self' inv inv' : DataInventory.t) (dataclass : DataClass)
       (products : option (list string)),
       DataInventory.start_date self = sd -> DataInventory.end_date self = ed ->
       DataInventory.start_day self = d1 -> DataInventory.end_day self = d2 ->
       DataInventory.start_date self' = sd' ->
       DataInventory.end_date self' = ed' ->
       DataInventory.start_day self' = d1' -> DataInventory.end_day self' = d2' ->
       DataInventory.site self' = DataInventory.site self ->
       DataInventory.tiles self' = DataInventory.tiles self ->
       DataInventory.AddData self dataclass products = Ok inv ->
       DataInventory.AddData self' dataclass products = Ok inv' ->
       forall d, d ∈ DataInventory.dates inv -> d ∈ DataInventory.dates inv'.
Proof.
  intros Hsd Hed Hd1 Hd2.
  assert (Hmono : forall d, DataInventory.in_extent sd ed d1 d2 d = true ->
                            DataInventory.in_extent sd' ed' d1' d2' d = true).
  { intros d. rewrite !in_extent_spec. intros (? & ? & ? & ?).
    split; [by etransitivity|]. split; [by etransitivity|]. lia. }
  split; [exact Hmono|].
  intros self self' inv inv' dataclass products
    <- <- <- <- <- <- <- <- Hsite Htiles Hadd Hadd' d.
  destruct (AddData_spec _ _ _ _ Hadd)
    as (self1 & resolved & Hst & Hres & _ & _ & _ & _ & _ & Hdates).
  destruct (AddData_spec _ _ _ _ Hadd')
    as (self1' & resolved' & Hst' & Hres' & _ & _ & _ & _ & _ & Hdates').
  rewrite Hdates, Hdates'.
  assert (resolved' = resolved) as ->.
  { unfold DataInventory.site_tiles in Hst, Hst'.
    rewrite Hsite, Htiles in Hst'.
    destruct (DataInventory.tiles self) as [ta|] eqn:Hta.
    - injection Hst as <-. injection Hst' as <-. congruence.
    - destruct (DataInventory.site self) as [s|].
      + apply bind_Ok in Hst as (v & Hv & Hst).
        apply bind_Ok in Hst as (c & Hc & [= <-]).
        apply bind_Ok in Hst' as (v' & Hv' & Hst').
        apply bind_Ok in Hst' as (c' & Hc' & [= <-]).
        cbn in Hres, Hres'. congruence.
      + injection Hst as <-. congruence. }
  intros (t & found & ? & ? & ? & Hin). exists t, found.
  repeat (split; [done|]). by apply Hmono.
Qed.

Local Arguments split : simpl never.
Local Arguments int : simpl never.

(** C4 (amended). When the date range parses: without a day range (or with
    the empty string) the day bounds are 1 and 366; with a day range whose
    first two fields, separated by commas, are read by [int] as [a] and
    [b], the day bounds are [a] and [b], whatever their values; and with a
    non-empty day range [temporal_extent] succeeds only in this case. *)
Theorem temporal_extent_days (self : DataInventory.t) (dates : option string)
    (sd ed : Date) :
  dateparse_range (match dates with None => "1984,2050" | Some s => s end)
  = Ok (sd, ed) ->
  (forall days, days = None \/ days = Some "" ->
     exists self1, DataInventory.temporal_extent self dates days = Ok self1
       /\ DataInventory.start_day self1 = 1
       /\ DataInventory.end_day self1 = 366)
  /\ (forall s d0 d1 rest a b, s <> "" ->
        split "," s = d0 :: d1 :: rest -> int d0 = Ok a -> int d1 = Ok b ->
        exists self1,
          DataInventory.temporal_extent self dates (Some s) = Ok self1
          /\ DataInventory.start_day self1 = a
          /\ DataInventory.end_day self1 = b)
  /\ (forall s self1, s <> "" ->
        DataInventory.temporal_extent self dates (Some s) = Ok self1 ->
        exists d0 d1 rest,
          split "," s = d0 :: d1 :: rest
          /\ int d0 = Ok (DataInventory.start_day self1)
          /\ int d1 = Ok (DataInventory.end_day self1)).
Proof.
  intros Hrange. unfold DataInventory.temporal_extent. rewrite Hrange. cbn.
  split; [|split].
  - intros days [->| ->]; cbn; by eexists.
  - intros s d0 d1 rest a b Hs Hsplit Ha Hb.
    destruct s as [|c s]; [done|]. cbn. rewrite Hsplit. cbn.
    rewrite Ha. cbn. rewrite Hb. cbn. by eexists.
  - intros s self1 Hs. destruct s as [|c s]; [done|]. cbn.
    destruct (split "," (String c s)) as [|d0 [|d1 rest]] eqn:Hsplit;
      cbn; [done| |].
    + destruct (int d0); cbn; done.
    + destruct (int d0) as [a|] eqn:Ha; cbn; [|done].
      destruct (int d1) as [b|] eqn:Hb; cbn; [|done].
      intros [= <-]. cbn. by exists d0, d1, rest.
Qed.

End TemporalProperties.

(** *** Inventories on the concrete world *)

(** The scenario of the specification: of the days 2020-045, 2020-150,
    2019-020 (first tile) and 2020-045, 2020-060 (second tile), the range
    2020-01-01..2020-12-31 with days 1..90 keeps 2020-045 and 2020-060. *)
Example inventory_scenario :
  (inv ← Fixture.inventory ∅; Ok (DataInventory.dates inv))
  = Ok [mkdate 2020 2 14; mkdate 2020 2 29].
Proof. vm_compute. reflexivity. Qed.

Lemma inventory_dates_witness :
  exists inv, Fixture.inventory ∅ = Ok inv
    /\ StronglySorted (strictly date_le) (DataInventory.dates inv)
    /\ forall d, d ∈ DataInventory.dates inv ->
         date_le (DataInventory.start_date inv) d
         /\ date_le d (DataInventory.end_date inv)
         /\ DataInventory.start_day inv <= day_of_year d
            <= DataInventory.end_day inv.
Proof.
  destruct (Fixture.inventory ∅) as [inv|e] eqn:Hinit.
  - exists inv. split; [reflexivity|].
    destruct (inventory_dates (Ext := Fixture.ext) _ _ _ _ _ _ inv Hinit)
      as (Hsorted & _ & resolved & _ & Hdates).
    split; [exact Hsorted|]. intros d Hd. apply Hdates in Hd as [_ Hd]. exact Hd.
  - assert (Hok : is_Ok (Fixture.inventory ∅) = true) by (vm_compute; reflexivity).
    rewrite Hinit in Hok. discriminate.
Defined.

Lemma date_filter_monotonic_witness :
  date_le (mkdate 2019 6 1) (mkdate 2020 1 1)
  /\ date_le (mkdate 2020 12 31) (mkdate 2021 6 30)
  /\ DataInventory.in_extent (mkdate 2020 1 1) (mkdate 2020 12 31) 1 90
       (mkdate 2020 2 14) = true
  /\ DataInventory.in_extent (mkdate 2019 6 1) (mkdate 2021 6 30) 1 120
       (mkdate 2020 2 14) = true.
Proof.
  split; [reflexivity|]. split; [reflexivity|]. split; [reflexivity|].
  refine (proj1 (date_filter_monotonic (Ext := Fixture.ext)
                   (mkdate 2020 1 1) (mkdate 2020 12 31)
                   (mkdate 2019 6 1) (mkdate 2021 6 30) 1 90 1 120 _ _ _ _)
            (mkdate 2020 2 14) _).
  - reflexivity.
  - reflexivity.
  - lia.
  - lia.
  - reflexivity.
Defined.

(** C4 (the claim fails). The day range ["400,300"], with both bounds
    above 366 and the first above the second, is accepted. *)
Lemma temporal_extent_accepts_any_days :
  (self1 ← DataInventory.temporal_extent (Ext := Fixture.ext) Fixture.blank
             None (Some "400,300");
   Ok (DataInventory.start_day self1, DataInventory.end_day self1))
  = Ok (400, 300).
Proof. vm_compute. reflexivity. Qed.

Lemma temporal_extent_days_witness :
  (exists self1,
     DataInventory.temporal_extent (Ext := Fixture.ext) Fixture.blank None None
     = Ok self1
     /\ DataInventory.start_day self1 = 1 /\ DataInventory.end_day self1 = 366)
  /\ exists self1,
       DataInventory.temporal_extent (Ext := Fixture.ext) Fixture.blank None
         (Some " 7 ,+90,x") = Ok self1
       /\ DataInventory.start_day self1 = 7 /\ DataInventory.end_day self1 = 90.
Proof.
  destruct (temporal_extent_days (Ext := Fixture.ext) Fixture.blank None
              (mkdate 1984 1 1) (mkdate 2050 12 31))
    as (Hdefault & Hdays & _).
  - reflexivity.
  - split.
    + apply Hdefault. left. reflexivity.
    + apply (Hdays " 7 ,+90,x" " 7 " "+90" ["x"] 7 90).
      * discriminate.
      * reflexivity.
      * reflexivity.
      * reflexivity.
Defined.

(** ** DataInventory.process and the Processor *)

Section ProcessorProperties.
Context `{Ext : Externals}.
Variables (P : Processing.Processor) (products : list string)
          (overwrite : bool) (suffix : string) (overviews : bool).

(** The inventory of [Processing.process] is the one of
    [DataInventory.process] for a class whose data sets have the method
    [run]. *)
Lemma process_sensors_outcome
    (run : Data.t -> list string -> bool -> string -> bool ->
           list (list string) * result Data.t)
    (date : Date) (ss : list string) (self : DataInventory.t)
    (trace : list Processing.invocation)
    (log : list DataInventory.process_call) :
  (forall dat ps ow sf ov,
     process_data (DataInventory.dataclass self) dat ps ow sf ov
     = (run dat ps ow sf ov).2) ->
  (Processing.process_sensors run self date ss products overwrite suffix
     overviews trace).2
  = (DataInventory.process_sensors self date ss products overwrite suffix
       overviews log).2.
Proof.
  revert self trace log. induction ss as [|s ss IH]; intros self trace log Hrun;
    cbn; [done|].
  destruct (getitem (DataInventory.data self) date ≫= _) as [dat|e]; [|done].
  rewrite Hrun.
  destruct (run dat products overwrite suffix overviews).2 as [dat'|e]; [|done].
  apply IH. exact Hrun.
Qed.

Lemma process_sensors_dataclass
    (run : Data.t -> list string -> bool -> string -> bool ->
           list (list string) * result Data.t)
    (date : Date) (ss : list string) (self self' : DataInventory.t)
    (trace : list Processing.invocation) :
  (Processing.process_sensors run self date ss products overwrite suffix
     overviews trace).2 = Ok self' ->
  DataInventory.dataclass self' = DataInventory.dataclass self.
Proof.
  revert self trace. induction ss as [|s ss IH]; intros self trace; cbn.
  - by intros [= <-].
  - destruct (getitem (DataInventory.data self) date ≫= _) as [dat|e]; [|done].
    destruct (run dat products overwrite suffix overviews).2 as [dat'|e];
      [|done].
    intros Hrest. by rewrite (IH _ _ Hrest).
Qed.

Lemma process_outcome
    (run : Data.t -> list string -> bool -> string -> bool ->
           list (list string) * result Data.t)
    (self : DataInventory.t) :
  (forall dat ps ow sf ov,
     process_data (DataInventory.dataclass self) dat ps ow sf ov
     = (run dat ps ow sf ov).2) ->
  (Processing.process run self products overwrite suffix overviews).2
  = (DataInventory.process self products overwrite suffix overviews).2.
Proof.
  unfold Processing.process, DataInventory.process.
  generalize (@nil Processing.invocation) (@nil DataInventory.process_call).
  generalize (DataInventory.dates self). intros ds. revert self.
  induction ds as [|d ds IH]; intros self trace log Hrun; cbn; [done|].
  destruct (getitem (DataInventory.data self) d) as [m|e]; [|done].
  pose proof (process_sensors_outcome run d (map_to_list m).*1 self trace log
                Hrun) as Hs.
  pose proof (process_sensors_dataclass run d (map_to_list m).*1 self) as Hdc.
  destruct (Processing.process_sensors run self d _ _ _ _ _ trace)
    as [trace1 [self1|e1]] eqn:Hp1;
    destruct (DataInventory.process_sensors self d _ _ _ _ _ log)
      as [log1 [self2|e2]]; cbn in Hs; try done.
  injection Hs as <-. apply IH. intros.
  rewrite (Hdc self1 trace) by (by rewrite Hp1).
  apply Hrun.
Qed.

Lemma flat_map_agree {A B : Type} (f g : A -> list B) (l : list A) :
  (forall x, x ∈ l -> f x = g x) -> flat_map f l = flat_map g l.
Proof.
  induction l as [|x l IH]; intros Hfg; cbn; [done|].
  rewrite Hfg by (by left). rewrite IH; [done|].
  intros y Hy. apply Hfg. by right.
Qed.

(** The loop over the sensors of a date, for data sets with the method of
    the specification: every sensor is visited once, with the data set the
    inventory held for it before the loop. *)
Lemma process_sensors_trace (date : Date) (ss : list string)
    (self : DataInventory.t) (trace : list Processing.invocation)
    (m : gmap string Data.t) :
  DataInventory.data self !! date = Some m -> NoDup ss ->
  (forall s, s ∈ ss -> is_Some (m !! s)) ->
  exists self',
    Processing.process_sensors (Processing.TileDataset_process P) self date ss
      products overwrite suffix overviews trace
    = (trace ++ flat_map (fun s =>
                  match m !! s with
                  | Some dat =>
                      Processing.mkInvocation date s
                        <$> (Processing.TileDataset_process P dat products
                               overwrite suffix overviews).1
                  | None => []
                  end) ss,
       Ok self')
    /\ (forall d, d <> date ->
          DataInventory.data self' !! d = DataInventory.data self !! d)
    /\ is_Some (DataInventory.data self' !! date).
Proof.
  revert self trace m. induction ss as [|s ss IH]; intros self trace m Hm Hnd Hall.
  - exists self. cbn. rewrite app_nil_r. split; [done|]. split; [done|].
    by exists m.
  - apply NoDup_cons in Hnd as [Hs Hnd].
    destruct (Hall s) as [dat Hdat]; [by left|].
    cbn. unfold getitem. rewrite Hm. cbn. rewrite Hdat.
    assert (exists dat', (Processing.TileDataset_process P dat products
                            overwrite suffix overviews).2 = Ok dat')
      as [dat' Hrun].
    { unfold Processing.TileDataset_process.
      destruct (Processing.requested dat products overwrite); by eexists. }
    rewrite Hrun.
    edestruct (IH
        {| DataInventory.dataclass := DataInventory.dataclass self;
           DataInventory.site := DataInventory.site self;
           DataInventory.tiles := DataInventory.tiles self;
           DataInventory.start_date := DataInventory.start_date self;
           DataInventory.end_date := DataInventory.end_date self;
           DataInventory.start_day := DataInventory.start_day self;
           DataInventory.end_day := DataInventory.end_day self;
           DataInventory.numfiles := DataInventory.numfiles self;
           DataInventory.data :=
             alter (insert s dat') date (DataInventory.data self) |}
        (trace ++ (Processing.mkInvocation date s
                     <$> (Processing.TileDataset_process P dat products
                            overwrite suffix overviews).1))
        (<[s := dat']> m))
      as (self' & Hloop & Hother & Hdate); [| exact Hnd | |].
    { cbn. by rewrite lookup_alter_eq, Hm. }
    { intros s' Hs'. rewrite lookup_insert_ne by (by intros ->).
      apply Hall. by right. }
    exists self'. split; [|split].
    + rewrite Hloop. f_equal. rewrite <- app_assoc. f_equal. f_equal.
      apply flat_map_agree. intros s' Hs'.
      by rewrite lookup_insert_ne by (by intros ->).
    + intros d Hd. rewrite Hother by done. cbn. by rewrite lookup_alter_ne.
    + done.
Qed.

(** The loop over the dates. *)
Lemma process_dates_trace (ds : list Date) (self : DataInventory.t)
    (trace : list Processing.invocation) :
  NoDup ds -> (forall d, d ∈ ds -> is_Some (DataInventory.data self !! d)) ->
  exists self',
    Processing.process_dates (Processing.TileDataset_process P) self ds
      products overwrite suffix overviews trace
    = (trace ++ flat_map (fun date =>
                  match DataInventory.data self !! date with
                  | Some m =>
                      flat_map (fun s =>
                        match m !! s with
                        | Some dat =>
                            Processing.mkInvocation date s
                              <$> (Processing.TileDataset_process P dat
                                     products overwrite suffix overviews).1
                        | None => []
                        end) (map_to_list m).*1
                  | None => []
                  end) ds,
       Ok self').
Proof.
  revert self trace. induction ds as [|x ds IH]; intros self trace Hnd Hall.
  - exists self. cbn. by rewrite app_nil_r.
  - apply NoDup_cons in Hnd as [Hx Hnd].
    destruct (Hall x) as [m Hm]; [by left|].
    cbn. unfold getitem. rewrite Hm.
    destruct (process_sensors_trace x (map_to_list m).*1 self trace m Hm)
      as (self1 & -> & Hother & Hdate).
    { apply NoDup_fst_map_to_list. }
    { intros s Hs. apply list_elem_of_fmap in Hs as ([s' dat] & -> & Hin).
      apply elem_of_map_to_list in Hin. by exists dat. }
    destruct (IH self1 (trace ++ flat_map (fun s =>
                  match m !! s with
                  | Some dat =>
                      Processing.mkInvocation x s
                        <$> (Processing.TileDataset_process P dat products
                               overwrite suffix overviews).1
                  | None => []
                  end) (map_to_list m).*1) Hnd) as (self' & ->).
    { intros d Hd. rewrite Hother by (by intros ->). apply Hall. by right. }
    exists self'. f_equal. rewrite <- app_assoc. f_equal. f_equal.
    apply flat_map_agree. intros d Hd. by rewrite Hother by (by intros ->).
Qed.

(** The invocations of the Processor that a run of [process] makes: one
    per data set of the inventory that has to turn to it, with the product
    list that the data set, as the inventory held it, asks for. *)
Lemma process_trace (self : DataInventory.t) (i : Processing.invocation) :
  i ∈ (Processing.process (Processing.TileDataset_process P) self products
         overwrite suffix overviews).1
  <-> exists by_sensor dat,
        DataInventory.data self !! Processing.inv_date i = Some by_sensor
        /\ by_sensor !! Processing.inv_sensor i = Some dat
        /\ Processing.inv_products i
           = Processing.requested dat products overwrite
        /\ Processing.inv_products i <> [].
Proof.
  unfold Processing.process.
  destruct (process_dates_trace (DataInventory.dates self) self [])
    as (self' & ->).
  { unfold DataInventory.dates, sorted_dates.
    rewrite merge_sort_Permutation. apply NoDup_fst_map_to_list. }
  { intros d. by rewrite elem_of_dates. }
  cbn. rewrite list_elem_of_In, in_flat_map. split.
  - intros (date & _ & Hi).
    destruct (DataInventory.data self !! date) as [m|] eqn:Hm; [|done].
    apply in_flat_map in Hi as (s & _ & Hi).
    destruct (m !! s) as [dat|] eqn:Hdat; [|done].
    apply list_elem_of_In, list_elem_of_fmap in Hi as (todo & -> & Htodo). cbn.
    exists m, dat. split; [done|]. split; [done|].
    unfold Processing.TileDataset_process in Htodo.
    destruct (Processing.requested dat products overwrite) as [|p todo'];
      [by apply elem_of_nil in Htodo|].
    apply list_elem_of_singleton in Htodo as ->. done.
  - intros (m & dat & Hm & Hdat & Hreq & Hne).
    exists (Processing.inv_date i). split.
    { apply list_elem_of_In, elem_of_dates. by exists m. }
    rewrite Hm. apply in_flat_map. exists (Processing.inv_sensor i). split.
    { apply list_elem_of_In, list_elem_of_fmap.
      exists (Processing.inv_sensor i, dat). split; [done|].
      by apply elem_of_map_to_list. }
    rewrite Hdat. apply list_elem_of_In, list_elem_of_fmap.
    exists (Processing.inv_products i). split; [by destruct i|].
    unfold Processing.TileDataset_process. rewrite <- Hreq.
    destruct (Processing.inv_products i); [done|]. by left.
Qed.

End ProcessorProperties.

(** C5. Let the data sets process as the specification says.  In a run of
    [process] without [overwrite], every invocation of the Processor is
    made for a data set of the inventory, with a non-empty list that holds
    exactly the requested products whose files do not exist for all tiles
    of that data set; so for a date all of whose data sets have every
    requested product for all tiles the Processor is not invoked; and a data
    set that lacks a requested product for some tile does turn to the
    Processor for it.  With [overwrite] the Processor is handed the
    requested products as they are. *)
Theorem process_skips_existing_products `{Ext : Externals}
    (P : Processing.Processor) (self : DataInventory.t)
    (products : list string) (suffix : string) (overviews : bool) :
  (forall i,
     i ∈ (Processing.process (Processing.TileDataset_process P) self products
            false suffix overviews).1 ->
     exists by_sensor dat,
       DataInventory.data self !! Processing.inv_date i = Some by_sensor
       /\ by_sensor !! Processing.inv_sensor i = Some dat
       /\ Processing.inv_products i <> []
       /\ forall p, p ∈ Processing.inv_products i <->
                    p ∈ products /\ Processing.present dat p = false)
  /\ (forall date by_sensor,
        DataInventory.data self !! date = Some by_sensor ->
        (forall sensor dat p, by_sensor !! sensor = Some dat -> p ∈ products ->
                              Processing.present dat p = true) ->
        forall i,
          i ∈ (Processing.process (Processing.TileDataset_process P) self
                 products false suffix overviews).1 ->
          Processing.inv_date i <> date)
  /\ (forall date by_sensor sensor dat p,
        DataInventory.data self !! date = Some by_sensor ->
        by_sensor !! sensor = Some dat -> p ∈ products ->
        Processing.present dat p = false ->
        exists todo,
          Processing.mkInvocation date sensor todo
          ∈ (Processing.process (Processing.TileDataset_process P) self
               products false suffix overviews).1
          /\ p ∈ todo)
  /\ (forall i,
        i ∈ (Processing.process (Processing.TileDataset_process P) self
               products true suffix overviews).1 ->
        Processing.inv_products i = products).
Proof.
  assert (Hreq : forall dat p,
            p ∈ Processing.requested dat products false <->
            p ∈ products /\ Processing.present dat p = false).
  { intros dat p. unfold Processing.requested.
    rewrite elem_of_List_filter, negb_true_iff. done. }
  split; [|split; [|split]].
  - intros i (m & dat & Hm & Hdat & Hprod & Hne)%process_trace.
    exists m, dat. repeat (split; [done|]). intros p. by rewrite Hprod.
  - intros date m Hm Hall i (m' & dat & Hm' & Hdat & Hprod & Hne)%process_trace Heq.
    rewrite Heq, Hm in Hm'. injection Hm' as <-.
    destruct (Processing.inv_products i) as [|p todo] eqn:Hi; [done|].
    assert (Hp : p ∈ Processing.requested dat products false)
      by (rewrite <- Hprod; by left).
    apply Hreq in Hp as [Hin Hnot].
    by rewrite (Hall _ _ _ Hdat Hin) in Hnot.
  - intros date m sensor dat p Hm Hdat Hin Hnot.
    exists (Processing.requested dat products false).
    assert (Hp : p ∈ Processing.requested dat products false) by (by apply Hreq).
    split; [|done]. apply process_trace. exists m, dat.
    cbn [Processing.inv_date Processing.inv_sensor Processing.inv_products].
    repeat (split; [done|]). intros Hnil. rewrite Hnil in Hp.
    by apply elem_of_nil in Hp.
  - by intros i (m & dat & _ & _ & -> & _)%process_trace.
Qed.

(** The scenario of the specification, with a stub Processor: an inventory
    in which both dates have the product ["toaref"] for all tiles.  The
    Processor is not invoked for ["toaref"]; for ["toaref"] and ["ndvi"] it
    is invoked once per date, for ["ndvi"] alone. *)
Example process_scenario :
  (inv ← Fixture.inventory {["toaref" := "toaref.tif"]};
   Ok (Processing.process (Processing.TileDataset_process Fixture.stub) inv
         ["toaref"] false "" false).1) = Ok []
  /\ (inv ← Fixture.inventory {["toaref" := "toaref.tif"]};
      Ok (Processing.process (Processing.TileDataset_process Fixture.stub) inv
            ["toaref"; "ndvi"] false "" false).1)
     = Ok [Processing.mkInvocation (mkdate 2020 2 14) "S" ["ndvi"];
           Processing.mkInvocation (mkdate 2020 2 29) "S" ["ndvi"]].
Proof. split; vm_compute; reflexivity. Qed.

(** * Further properties of the code *)

(** ** Data: construction and the queries right after it *)

Section MoreDataProperties.
Context `{Ext : Externals}.

Lemma elem_of_keys {K V : Type} `{Countable K} (m : gmap K V) (k : K) :
  k ∈ (map_to_list m).*1 <-> is_Some (m !! k).
Proof.
  rewrite list_elem_of_fmap. split.
  - intros ([k' v] & -> & Hin). apply elem_of_map_to_list in Hin. by exists v.
  - intros [v Hv]. exists (k, v). split; [done|]. by apply elem_of_map_to_list.
Qed.

(** X1. [Data.__init__] with [tiles] given never raises, whatever [site]
    is: the data set keeps [site] and [date], has no mosaic products, and
    holds exactly the given tiles (the keys, when [tiles] is a coverage
    dict), each with coverage 1 and with an empty dict as entry.  The
    weights of a coverage dict passed as [tiles] are not kept. *)
Theorem init_explicit_tiles (cls : ClassAttrs) (site : option string)
    (tiles : tiles_arg) (date : option Date) (products : option (list string)) :
  exists self, Data.init cls site (Some tiles) date products = Ok self
    /\ Data.site self = site /\ Data.date self = date
    /\ Data.products self = ∅ /\ Data.sensor self = None
    /\ forall t,
         Data.tile_coverage self !! t
         = (if bool_decide (t ∈ iter_tiles tiles) then Some 1%Q else None)
         /\ Data.tiles self !! t
            = (if bool_decide (t ∈ iter_tiles tiles) then Some ∅ else None).
Proof.
  eexists. split; [reflexivity|]. cbn. repeat (split; [reflexivity|]).
  intros t. rewrite !lookup_foldl_insert, !lookup_empty. split; [done|].
  destruct (decide (t ∈ iter_tiles tiles)) as [Hin|Hin].
  - rewrite (bool_decide_eq_true_2 _ Hin). rewrite bool_decide_eq_true_2; [done|].
    apply elem_of_keys. by rewrite lookup_foldl_insert, bool_decide_eq_true_2.
  - rewrite (bool_decide_eq_false_2 _ Hin). rewrite bool_decide_eq_false_2; [done|].
    rewrite elem_of_keys, lookup_foldl_insert, bool_decide_eq_false_2 by done.
    rewrite lookup_empty. by intros [? ?].
Qed.

(** X2. [Data.__init__] with neither [site] nor [tiles] lists the root
    directory of the class ([self.path()] is [cls.rootdir]): when the
    listing raises, the constructor raises the same exception; otherwise
    the tiles of the data set are exactly the entries of the root
    directory, each with coverage 1 and an empty dict as entry. *)
Theorem init_lists_rootdir (cls : ClassAttrs) (date : option Date)
    (products : option (list string)) :
  match listdir (rootdir cls) with
  | Ok names =>
      exists self, Data.init cls None None date products = Ok self
        /\ forall t,
             Data.tile_coverage self !! t
             = (if bool_decide (t ∈ names) then Some 1%Q else None)
             /\ Data.tiles self !! t
                = (if bool_decide (t ∈ names) then Some ∅ else None)
  | Raise e => Data.init cls None None date products = Raise e
  end.
Proof.
  unfold Data.init, Data.path. cbn.
  destruct (listdir (rootdir cls)) as [names|e]; cbn; [|done].
  eexists. split; [reflexivity|]. cbn. intros t.
  rewrite !lookup_foldl_insert, !lookup_empty. split; [done|].
  destruct (decide (t ∈ names)) as [Hin|Hin].
  - rewrite (bool_decide_eq_true_2 _ Hin). rewrite bool_decide_eq_true_2; [done|].
    apply elem_of_keys. by rewrite lookup_foldl_insert, bool_decide_eq_true_2.
  - rewrite (bool_decide_eq_false_2 _ Hin). rewrite bool_decide_eq_false_2; [done|].
    rewrite elem_of_keys, lookup_foldl_insert, bool_decide_eq_false_2 by done.
    rewrite lookup_empty. by intros [? ?].
Qed.

(** X3. On a data set as [Data.__init__] returns it, [filename] raises
    [KeyError] for every product, with every tile and without a tile: no
    tile has a ["products"] dict yet, and the mosaic products are empty. *)
Theorem filename_after_init_KeyError (cls : ClassAttrs) (site : option string)
    (tiles : option tiles_arg) (date : option Date)
    (products : option (list string)) (self : Data.t)
    (product : string) (tile : option string) :
  Data.init cls site tiles date products = Ok self ->
  Data.filename self product tile = Raise KeyError.
Proof.
  intros Hinit. destruct tile as [tile|]; unfold Data.filename, getitem.
  - destruct (Data.tiles self !! tile) as [entry|] eqn:Ht; cbn; [|reflexivity].
    rewrite (init_tiles_empty _ _ _ _ _ _ _ _ Hinit Ht).
    by rewrite lookup_empty.
  - unfold Data.init in Hinit.
    destruct (match tiles with Some _ => _ | None => _ end) as [cov|e];
      cbn in Hinit; [|discriminate].
    by injection Hinit as <-.
Qed.

(** X4. On a data set as [Data.__init__] returns it, [get_products] returns
    the empty list when the data set has no tile and raises [KeyError] as
    soon as it has one. *)
Theorem get_products_after_init (cls : ClassAttrs) (site : option string)
    (tiles : option tiles_arg) (date : option Date)
    (products : option (list string)) (self : Data.t) :
  Data.init cls site tiles date products = Ok self ->
  Data.get_products self
  = if decide (Data.tiles self = ∅) then Ok [] else Raise KeyError.
Proof.
  intros Hinit. unfold Data.get_products.
  destruct (map_to_list (Data.tiles self)) as [|[t e] rest] eqn:Hl.
  - apply map_to_list_empty_iff in Hl. rewrite decide_True by done. done.
  - assert (Ht : Data.tiles self !! t = Some e).
    { apply elem_of_map_to_list. rewrite Hl. by left. }
    rewrite decide_False by (intros Hempty; by rewrite Hempty in Ht).
    cbn. rewrite (init_tiles_empty _ _ _ _ _ _ _ _ Hinit Ht).
    unfold getitem. by rewrite lookup_empty.
Qed.

Lemma parse_dates_Forall2 (names : list string) (found : list Date) :
  Data.parse_dates names = Ok found <->
  Forall2 (fun n d => strptime_Yj (basename n) = Ok d) names found.
Proof.
  revert found. induction names as [|n names IH]; intros found; cbn.
  - split; [intros [= <-]; constructor|by intros ->%Forall2_nil_inv_l].
  - rewrite bind_Ok. split.
    + intros (x & Hx & (xs & Hxs & [= <-])%bind_Ok).
      constructor; [done|by apply IH].
    + intros (x & xs & Hx & Hxs & ->)%Forall2_cons_inv_l.
      exists x. split; [done|]. apply bind_Ok. exists xs. split; [by apply IH|done].
Qed.

(** X5. [find_dates] returns a list exactly when the directory of the tile
    can be listed and every entry of it parses as a date; the list then has
    one date per entry, in the order of the listing (an entry that does
    not parse is not skipped, and a date found twice is listed twice). *)
Theorem find_dates_Forall2 (cls : ClassAttrs) (tile : string) (found : list Date) :
  Data.find_dates cls tile = Ok found <->
  exists names, listdir (Data.path cls tile "") = Ok names
    /\ Forall2 (fun n d => strptime_Yj (basename n) = Ok d) names found.
Proof.
  unfold Data.find_dates. rewrite bind_Ok.
  by setoid_rewrite parse_dates_Forall2.
Qed.

End MoreDataProperties.

(** ** Data.vector2tiles: order of the layer, clashing keys, exceptions *)

Section MoreCoverageProperties.
Context `{Ext : Externals}.

Lemma List_filter_Permutation {A : Type} (p : A -> bool) (l l' : list A) :
  l ≡ₚ l' -> List.filter p l ≡ₚ List.filter p l'.
Proof.
  induction 1 as [|x l l' _ IH|x y l|l l' l'' _ IH1 _ IH2]; cbn.
  - done.
  - destruct (p x); [by constructor|done].
  - destruct (p x), (p y); try done. apply perm_swap.
  - by etransitivity.
Qed.

Lemma NoDup_fmap_List_filter {A B : Type} (f : A -> B) (p : A -> bool)
    (l : list A) :
  NoDup (f <$> l) -> NoDup (f <$> List.filter p l).
Proof.
  induction l as [|x l IH]; cbn; [done|].
  intros [Hx Hnd]%NoDup_cons. destruct (p x); [|by apply IH].
  cbn. apply NoDup_cons. split; [|by apply IH].
  intros (y & Hy & [Hin _]%elem_of_List_filter)%list_elem_of_fmap.
  apply Hx. rewrite Hy. by apply list_elem_of_fmap_2.
Qed.

Lemma vector2tiles_loop_Permutation (geom : Geom) (l l' : list Feature) :
  l ≡ₚ l' -> NoDup (Data.tile_id <$> l) ->
  forall acc, Data.vector2tiles_loop geom l acc
              = Data.vector2tiles_loop geom l' acc.
Proof.
  induction 1 as [|x l l' _ IH|x y l|l l' l'' Hp1 IH1 _ IH2]; intros Hnd acc.
  - done.
  - cbn in *. apply NoDup_cons in Hnd as [_ Hnd].
    destruct (Qeq_bool (intersection_area geom (geometry x)) 0); cbn; [by apply IH|].
    destruct (Qeq_bool (geom_area geom) 0); [done|by apply IH].
  - cbn in *. apply NoDup_cons in Hnd as [Hy _].
    destruct (Qeq_bool (intersection_area geom (geometry x)) 0),
             (Qeq_bool (intersection_area geom (geometry y)) 0),
             (Qeq_bool (geom_area geom) 0); cbn; try done.
    rewrite insert_insert_ne; [done|].
    intros Heq. apply Hy. rewrite Heq. by left.
  - rewrite IH1 by done. apply IH2. by rewrite <- Hp1.
Qed.

(** X6. When the tiles of the layer get distinct keys, the outcome of
    [vector2tiles] (the coverage map or the exception) does not depend on
    the order in which the layer yields its features. *)
Theorem vector2tiles_layer_order (cls cls' : ClassAttrs) (vector : Vector)
    (tlayer tlayer' : list Feature) :
  tiles_layer cls = Ok tlayer -> tiles_layer cls' = Ok tlayer' ->
  tlayer ≡ₚ tlayer' -> NoDup (Data.tile_id <$> tlayer) ->
  Data.vector2tiles cls vector = Data.vector2tiles cls' vector.
Proof.
  intros Hl Hl' Hperm Hnd. unfold Data.vector2tiles.
  destruct (union vector) as [g0|e]; cbn; [|done].
  rewrite Hl, Hl'. cbn.
  destruct (transform vector g0) as [geom|e]; cbn; [|done].
  pose proof (List_filter_Permutation
                (fun f => spatial_filter geom (geometry f)) _ _ Hperm) as Hf.
  pose proof (NoDup_fmap_List_filter Data.tile_id
                (fun f => spatial_filter geom (geometry f)) _ Hnd) as Hndf.
  pose proof (vector2tiles_loop_Permutation geom _ _ Hf Hndf ∅) as Hloop.
  destruct (List.filter _ tlayer) as [|f fs], (List.filter _ tlayer') as [|f' fs'];
    try done.
  - by apply Permutation_nil_cons in Hf.
  - symmetry in Hf. by apply Permutation_nil_cons in Hf.
Qed.

(** The loop keeps, for a key, the weight of the last feature with that key
    and a non-zero intersection. *)
Lemma vector2tiles_loop_last (geom : Geom) (feats : list Feature)
    (acc tiles : gmap string Q) (k : string) (w : Q) :
  Data.vector2tiles_loop geom feats acc = Ok tiles ->
  tiles !! k = Some w ->
  (acc !! k = Some w
   /\ forall f, f ∈ feats -> Data.tile_id f = k ->
        Qeq (intersection_area geom (geometry f)) 0)
  \/ exists l1 f l2, feats = l1 ++ f :: l2
       /\ Data.tile_id f = k
       /\ ~ Qeq (intersection_area geom (geometry f)) 0
       /\ w = Qdiv (intersection_area geom (geometry f)) (geom_area geom)
       /\ forall f', f' ∈ l2 -> Data.tile_id f' = k ->
            Qeq (intersection_area geom (geometry f')) 0.
Proof.
  revert acc. induction feats as [|feat rest IH]; intros acc; cbn.
  - intros [= <-] Hk. left. split; [done|]. by intros f ?%elem_of_nil.
  - destruct (Qeq_bool (intersection_area geom (geometry feat)) 0) eqn:Harea; cbn.
    + intros Hloop Hk.
      destruct (IH _ Hloop Hk) as [[Hacc Hz]|(l1 & f & l2 & -> & Hrest)].
      * left. split; [done|]. intros f [->|?]%elem_of_cons ?; [|by apply Hz].
        by apply Qeq_bool_iff.
      * right. by exists (feat :: l1), f, l2.
    + destruct (Qeq_bool (geom_area geom) 0); [done|].
      intros Hloop Hk.
      destruct (IH _ Hloop Hk) as [[Hacc Hz]|(l1 & f & l2 & -> & Hrest)].
      * destruct (decide (Data.tile_id feat = k)) as [Heq|Hne].
        -- rewrite Heq, lookup_insert_eq in Hacc. injection Hacc as <-.
           right. exists [], feat, rest. split; [done|]. split; [done|].
           split; [by apply Qeq_bool_neq|]. split; [done|exact Hz].
        -- rewrite lookup_insert_ne in Hacc by done. left. split; [done|].
           intros f [->|?]%elem_of_cons ?; [done|by apply Hz].
      * right. by exists (feat :: l1), f, l2.
Qed.

(** X7. When several tiles of the layer get the same key (an identifier of
    five characters is padded to one of six that another tile may have),
    the coverage map holds for that key the weight of the last such tile,
    in the order of the filtered layer, whose intersection with the region
    is not zero. *)
Theorem vector2tiles_last_feature_wins (cls : ClassAttrs) (vector : Vector)
    (g0 geom : Geom) (tlayer : list Feature) (tiles : gmap string Q)
    (k : string) (w : Q) :
  union vector = Ok g0 -> tiles_layer cls = Ok tlayer ->
  transform vector g0 = Ok geom ->
  Data.vector2tiles cls vector = Ok tiles -> tiles !! k = Some w ->
  exists l1 f l2,
    List.filter (fun f => spatial_filter geom (geometry f)) tlayer
    = l1 ++ f :: l2
    /\ Data.tile_id f = k
    /\ ~ Qeq (intersection_area geom (geometry f)) 0
    /\ w = Qdiv (intersection_area geom (geometry f)) (geom_area geom)
    /\ forall f', f' ∈ l2 -> Data.tile_id f' = k ->
         Qeq (intersection_area geom (geometry f')) 0.
Proof.
  intros Hu Hl Ht. unfold Data.vector2tiles.
  rewrite Hu. cbn. rewrite Hl. cbn. rewrite Ht. cbn.
  generalize (List.filter (fun f => spatial_filter geom (geometry f)) tlayer).
  intros feats Hloop Hk.
  assert (Hloop' : Data.vector2tiles_loop geom feats ∅ = Ok tiles)
    by (destruct feats; [done|exact Hloop]).
  destruct (vector2tiles_loop_last geom _ _ _ _ _ Hloop' Hk)
    as [[Hempty _]|(l1 & f & l2 & Hfeats & Hid & Hnz & Hw & Hlast)].
  - by rewrite lookup_empty in Hempty.
  - by exists l1, f, l2.
Qed.



End MoreCoverageProperties.

(** ** DataInventory.AddData: what an inventory holds *)

Section MoreInventoryProperties.
Context `{Ext : Externals}.

Lemma dates_nil (self : DataInventory.t) :
  DataInventory.dates self = [] <-> DataInventory.data self = ∅.
Proof.
  split.
  - intros Hnil. apply map_empty. intros d.
    destruct (DataInventory.data self !! d) eqn:Hd; [|done].
    assert (Hin : d ∈ DataInventory.dates self)
      by (apply elem_of_dates; by eexists).
    rewrite Hnil in Hin. by apply elem_of_nil in Hin.
  - intros Hempty. apply elem_of_nil_inv. intros d [m Hm]%elem_of_dates.
    by rewrite Hempty, lookup_empty in Hm.
Qed.

Lemma NoDup_dates (self : DataInventory.t) : NoDup (DataInventory.dates self).
Proof.
  unfold DataInventory.dates, sorted_dates.
  rewrite merge_sort_Permutation. apply NoDup_fst_map_to_list.
Qed.

Lemma dates_ext (self self' : DataInventory.t) :
  (forall d, is_Some (DataInventory.data self' !! d)
             <-> is_Some (DataInventory.data self !! d)) ->
  DataInventory.dates self' = DataInventory.dates self.
Proof.
  intros Hdom. apply (StronglySorted_unique date_le).
  - apply StronglySorted_merge_sort; apply _.
  - apply StronglySorted_merge_sort; apply _.
  - apply NoDup_Permutation; [apply NoDup_dates..|].
    intros d. by rewrite !elem_of_dates.
Qed.

Lemma add_dates_bounds (self self' : DataInventory.t) (found dates : list Date) :
  DataInventory.start_date self' = DataInventory.start_date self ->
  DataInventory.end_date self' = DataInventory.end_date self ->
  DataInventory.start_day self' = DataInventory.start_day self ->
  DataInventory.end_day self' = DataInventory.end_day self ->
  DataInventory.add_dates self' found dates
  = DataInventory.add_dates self found dates.
Proof.
  intros Hsd Hed Hs He. revert dates.
  induction found as [|x found IH]; intros dates; cbn; [done|].
  rewrite Hsd, Hed, Hs, He, !IH. done.
Qed.

Lemma matching_dates_bounds (self self' : DataInventory.t) (cls : ClassAttrs)
    (tiles : list string) (dates : list Date) :
  DataInventory.start_date self' = DataInventory.start_date self ->
  DataInventory.end_date self' = DataInventory.end_date self ->
  DataInventory.start_day self' = DataInventory.start_day self ->
  DataInventory.end_day self' = DataInventory.end_day self ->
  DataInventory.matching_dates self' cls tiles dates
  = DataInventory.matching_dates self cls tiles dates.
Proof.
  intros Hsd Hed Hs He. revert dates.
  induction tiles as [|t tiles IH]; intros dates; cbn; [done|].
  destruct (Data.find_dates cls t) as [found|e]; cbn; [|done].
  by rewrite IH, (add_dates_bounds self self').
Qed.

(** X9. [AddData] does not add to what the inventory holds: its outcome is
    the same as on the inventory with [data] emptied and [numfiles] set to
    0, so the data sets of an earlier call are dropped. *)
Theorem AddData_discards_previous (self : DataInventory.t)
    (dataclass : DataClass) (products : option (list string)) :
  DataInventory.AddData self dataclass products
  = DataInventory.AddData (DataInventory.reset_data self) dataclass products.
Proof.
  unfold DataInventory.AddData, DataInventory.site_tiles. cbn.
  destruct (DataInventory.tiles self) as [tiles|] eqn:Htiles.
  - cbn. rewrite Htiles. cbn.
    by rewrite (matching_dates_bounds self (DataInventory.reset_data self)).
  - destruct (DataInventory.site self) as [site|] eqn:Hsite.
    + destruct (GeoVector site) as [vector|e]; cbn; [|done].
      destruct (Data.vector2tiles (attrs dataclass) vector) as [cover|e];
        cbn; [|done].
      by rewrite (matching_dates_bounds
                    (DataInventory.set_tiles self (Some (TileDict cover)))
                    (DataInventory.set_tiles (DataInventory.reset_data self)
                       (Some (TileDict cover)))).
    + cbn. by rewrite Htiles.
Qed.

Lemma add_datasets_data (self : DataInventory.t) (dataclass : DataClass)
    (products : option (list string)) (ds : list Date) (inv : DataInventory.t)
    (d : Date) (m : gmap string Data.t) :
  DataInventory.add_datasets self dataclass products ds = Ok inv ->
  DataInventory.data inv !! d = Some m ->
  DataInventory.data self !! d = Some m
  \/ exists dat s,
       new dataclass (DataInventory.site self) (DataInventory.tiles self)
         (Some d) products = Ok dat
       /\ Data.sensor dat = Some s /\ m = {[s := dat]}.
Proof.
  revert self. induction ds as [|x ds IH]; intros self; cbn.
  - intros [= <-] Hm. by left.
  - intros (dat & Hdat & (s & Hs & Hrest)%bind_Ok)%bind_Ok Hm.
    destruct (IH _ Hrest Hm) as [Hself|Hnew]; [|by right]. cbn in Hself.
    destruct (decide (x = d)) as [->|Hne].
    + rewrite lookup_insert_eq in Hself. injection Hself as <-.
      right. exists dat, s. split; [done|]. split; [|done].
      by destruct (Data.sensor dat) as [s'|]; [injection Hs as ->|].
    + rewrite lookup_insert_ne in Hself by done. by left.
Qed.

(** X10. In an inventory that [AddData] returns, every date holds one data
    set, filed under its own sensor: the one the class constructs from the
    site and the tiles of the inventory, that date and the given
    products. *)
Theorem AddData_datasets (self inv : DataInventory.t) (dataclass : DataClass)
    (products : option (list string)) (d : Date) (m : gmap string Data.t) :
  DataInventory.AddData self dataclass products = Ok inv ->
  DataInventory.data inv !! d = Some m ->
  exists dat s,
    new dataclass (DataInventory.site inv) (DataInventory.tiles inv)
      (Some d) products = Ok dat
    /\ Data.sensor dat = Some s /\ m = {[s := dat]}.
Proof.
  unfold DataInventory.AddData.
  intros (self1 & Hself1 & (names & Hnames & (ds & Hds & Hadd)%bind_Ok)%bind_Ok)%bind_Ok Hm.
  destruct (add_datasets_spec _ _ _ _ _ Hadd) as (Hsite & Htiles & _).
  destruct (add_datasets_data _ _ _ _ _ _ _ Hadd Hm) as [Hempty|Hnew].
  - cbn in Hempty. by rewrite lookup_empty in Hempty.
  - by rewrite Hsite, Htiles.
Qed.

Lemma add_datasets_numfiles (self : DataInventory.t) (dataclass : DataClass)
    (products : option (list string)) (ds : list Date) (inv : DataInventory.t) :
  NoDup ds -> (forall d, d ∈ ds -> DataInventory.data self !! d = None) ->
  DataInventory.add_datasets self dataclass products ds = Ok inv ->
  DataInventory.numfiles inv
  - map_fold (fun _ by_sensor n =>
                n + map_fold (fun _ dat k => k + Z.of_nat (size (Data.tiles dat)))
                      0 by_sensor) 0 (DataInventory.data inv)
  = DataInventory.numfiles self
    - map_fold (fun _ by_sensor n =>
                  n + map_fold (fun _ dat k => k + Z.of_nat (size (Data.tiles dat)))
                        0 by_sensor) 0 (DataInventory.data self).
Proof.
  revert self. induction ds as [|x ds IH]; intros self Hnd Hfresh; cbn.
  - by intros [= <-].
  - intros (dat & Hdat & (s & Hs & Hrest)%bind_Ok)%bind_Ok.
    apply NoDup_cons in Hnd as [Hx Hnd].
    apply IH in Hrest; [|done|].
    + rewrite Hrest. cbn. rewrite map_fold_insert_L.
      * rewrite map_fold_singleton. lia.
      * intros. lia.
      * apply Hfresh. by left.
    + intros d Hd. cbn. rewrite lookup_insert_ne by (by intros ->).
      apply Hfresh. by right.
Qed.

(** X11. In an inventory that [AddData] returns, [numfiles] is the number
    of tile entries of all its data sets together. *)
Theorem AddData_numfiles (self inv : DataInventory.t) (dataclass : DataClass)
    (products : option (list string)) :
  DataInventory.AddData self dataclass products = Ok inv ->
  DataInventory.numfiles inv
  = map_fold (fun _ by_sensor n =>
                n + map_fold (fun _ dat k => k + Z.of_nat (size (Data.tiles dat)))
                      0 by_sensor) 0 (DataInventory.data inv).
Proof.
  unfold DataInventory.AddData.
  intros (self1 & Hself1 & (names & Hnames & (ds & Hds & Hadd)%bind_Ok)%bind_Ok)%bind_Ok.
  destruct (matching_dates_spec _ _ _ _ _ Hds) as [Hnd _].
  apply add_datasets_numfiles in Hadd.
  - cbn in Hadd. rewrite map_fold_empty in Hadd. lia.
  - unfold sorted_dates. rewrite merge_sort_Permutation. apply Hnd. constructor.
  - intros d _. apply lookup_empty.
Qed.

(** X12. An inventory cannot be constructed with neither a site nor tiles
    (while [Data.__init__] then takes every tile of the root directory):
    the constructor never returns, and when the date range parses and no
    day range is given it raises [TypeError], from the loop over the tiles
    that are [None]. *)
Theorem init_without_site_and_tiles (dataclass : DataClass)
    (dates days : option string) (products : option (list string)) :
  (forall inv,
     DataInventory.init dataclass None None dates days products <> Ok inv)
  /\ forall sd ed,
       dateparse_range (match dates with None => "1984,2050" | Some s => s end)
       = Ok (sd, ed) ->
       DataInventory.init dataclass None None dates None products
       = Raise TypeError.
Proof.
  split.
  - intros inv. unfold DataInventory.init.
    intros (self1 & Hext & Hadd)%bind_Ok.
    destruct (temporal_extent_spec _ _ _ _ Hext) as (Hsite & Htiles & _).
    cbn in Hsite, Htiles.
    unfold DataInventory.AddData, DataInventory.site_tiles in Hadd.
    rewrite Hsite, Htiles in Hadd. cbn in Hadd. by rewrite Htiles in Hadd.
  - intros sd ed Hrange. unfold DataInventory.init, DataInventory.temporal_extent.
    rewrite Hrange. reflexivity.
Qed.

Lemma add_datasets_base_class (self inv : DataInventory.t) (cls : ClassAttrs)
    (products : option (list string)) (ds : list Date) :
  DataInventory.add_datasets self (Data_class cls) products ds = Ok inv ->
  ds = [] /\ inv = self.
Proof.
  destruct ds as [|d ds]; cbn; [by intros [= <-]|].
  intros (dat & Hdat & (s & Hs & _)%bind_Ok)%bind_Ok. exfalso.
  unfold Data.init in Hdat.
  destruct (match DataInventory.tiles self with Some _ => _ | None => _ end)
    as [cov|e]; cbn in Hdat; [|discriminate].
  injection Hdat as <-. discriminate.
Qed.

(** X13. With the base class [Data] as data class, whose instances have no
    [sensor], [AddData] returns only when there is nothing to add: the
    inventory it returns is empty, and none of the dates found for its
    tiles lies within the bounds. *)
Theorem AddData_base_class_empty (self inv : DataInventory.t)
    (cls : ClassAttrs) (products : option (list string)) :
  DataInventory.AddData self (Data_class cls) products = Ok inv ->
  DataInventory.data inv = ∅ /\ DataInventory.numfiles inv = 0
  /\ forall t found d, DataInventory.tiles inv = Some t ->
       forall tile, tile ∈ iter_tiles t ->
         Data.find_dates cls tile = Ok found -> d ∈ found ->
         ~ DataInventory.within self d.
Proof.
  intros Hadd.
  destruct (AddData_spec _ _ _ _ Hadd)
    as (self1 & tiles & _ & _ & Htiles & _ & _ & _ & _ & Hdates).
  unfold DataInventory.AddData in Hadd.
  apply bind_Ok in Hadd as (self1' & _ & Hadd).
  apply bind_Ok in Hadd as (names & _ & Hadd).
  apply bind_Ok in Hadd as (ds & _ & Hadd).
  apply add_datasets_base_class in Hadd as [_ ->]. cbn.
  split; [done|]. split; [done|].
  intros t found d Ht tile Htile Hfound Hd Hwithin.
  cbn in Htiles, Ht. assert (t = tiles) as -> by congruence.
  assert (Hin : d ∈ DataInventory.dates (DataInventory.reset_data self1'))
    by (apply Hdates; by exists tile, found).
  apply elem_of_dates in Hin as [? Hin]. cbn in Hin.
  by rewrite lookup_empty in Hin.
Qed.

(** X14. With the day bounds or the date bounds the wrong way round (the
    end before the start) the inventory that [AddData] returns has no
    date: a day range such as 335 to 60 is not taken across the end of the
    year. *)
Theorem AddData_inverted_bounds (self inv : DataInventory.t)
    (dataclass : DataClass) (products : option (list string)) :
  DataInventory.AddData self dataclass products = Ok inv ->
  DataInventory.end_day self < DataInventory.start_day self
  \/ ~ date_le (DataInventory.start_date self) (DataInventory.end_date self) ->
  DataInventory.dates inv = [] /\ DataInventory.numdates inv = 0.
Proof.
  intros Hadd Hinv.
  destruct (AddData_spec _ _ _ _ Hadd)
    as (self1 & tiles & _ & _ & _ & _ & _ & _ & _ & Hdates).
  assert (Hnil : DataInventory.dates inv = []).
  { apply elem_of_nil_inv. intros d (t & found & _ & _ & _ & Hin)%Hdates.
    apply in_extent_spec in Hin as (Hsd & Hed & Hday).
    destruct Hinv as [?|Hne]; [lia|]. apply Hne. by etransitivity. }
  split; [done|]. apply dates_nil in Hnil.
  unfold DataInventory.numdates. by rewrite Hnil.
Qed.

(** X15. When the inventory has no tiles but a site, [AddData] takes as
    tiles the coverage map that [vector2tiles] computes for the vector file
    of the site, and fails when that fails; tiles that are given are
    kept. *)
Theorem AddData_tiles (self inv : DataInventory.t) (dataclass : DataClass)
    (products : option (list string)) :
  DataInventory.AddData self dataclass products = Ok inv ->
  match DataInventory.tiles self with
  | Some t => DataInventory.tiles inv = Some t
  | None =>
      exists site vector cover,
        DataInventory.site self = Some site
        /\ GeoVector site = Ok vector
        /\ Data.vector2tiles (attrs dataclass) vector = Ok cover
        /\ DataInventory.tiles inv = Some (TileDict cover)
  end.
Proof.
  intros Hadd.
  destruct (AddData_spec _ _ _ _ Hadd)
    as (self1 & tiles & Hst & Hres & Htiles & _).
  unfold DataInventory.site_tiles in Hst.
  destruct (DataInventory.tiles self) as [t|] eqn:Ht.
  - injection Hst as <-. congruence.
  - destruct (DataInventory.site self) as [site|] eqn:Hsite.
    + apply bind_Ok in Hst as (vector & Hv & Hst).
      apply bind_Ok in Hst as (cover & Hc & [= <-]).
      exists site, vector, cover. cbn in Hres. repeat (split; [done|]).
      congruence.
    + injection Hst as <-. congruence.
Qed.

(** X16. [inv[date]] returns the data sets of a date exactly for the dates
    that [dates] lists and raises [KeyError] for every other date; and
    [numdates] is the length of [dates]. *)
Theorem getitem_dates (self : DataInventory.t) (date : Date) :
  (date ∈ DataInventory.dates self <->
     exists by_sensor, DataInventory.__getitem__ self date = Ok by_sensor)
  /\ (date ∉ DataInventory.dates self <->
        DataInventory.__getitem__ self date = Raise KeyError)
  /\ DataInventory.numdates self
     = Z.of_nat (length (DataInventory.dates self)).
Proof.
  unfold DataInventory.__getitem__, getitem.
  rewrite elem_of_dates. split; [|split].
  - destruct (DataInventory.data self !! date) as [m|].
    + split; intros _; by exists m.
    + split; by intros [? ?].
  - destruct (DataInventory.data self !! date) as [m|].
    + split; [|done]. intros []. by exists m.
    + split; [done|]. by intros _ [? ?].
  - unfold DataInventory.numdates, DataInventory.dates, sorted_dates.
    rewrite merge_sort_Permutation, length_fmap. by rewrite length_map_to_list.
Qed.

End MoreInventoryProperties.

(** ** DataInventory.process: the calls it makes *)

Section ProcessProperties.
Context `{Ext : Externals}.
Variables (products : list string) (overwrite : bool) (suffix : string)
          (overviews : bool).

(** The loop over the sensors of a date: the calls made are those for an
    initial part of the sensors, for all of them when no call raises; the
    data sets of the other dates are left alone and the date keeps its
    place. *)
Lemma process_sensors_spec (date : Date) (ss : list string)
    (self : DataInventory.t) (log : list DataInventory.process_call)
    (m : gmap string Data.t) :
  DataInventory.data self !! date = Some m ->
  (forall s, s ∈ ss -> is_Some (m !! s)) ->
  exists made rest,
    ss = made ++ rest
    /\ (DataInventory.process_sensors self date ss products overwrite suffix
          overviews log).1
       = log ++ ((fun s => DataInventory.mkCall date s products overwrite)
                   <$> made)
    /\ match (DataInventory.process_sensors self date ss products overwrite
                suffix overviews log).2 with
       | Ok self' =>
           rest = []
           /\ (forall d, d <> date ->
                 DataInventory.data self' !! d = DataInventory.data self !! d)
           /\ is_Some (DataInventory.data self' !! date)
       | Raise _ => True
       end.
Proof.
  revert self log m. induction ss as [|s ss IH]; intros self log m Hm Hall.
  - exists [], []. cbn. rewrite app_nil_r.
    do 4 (split; [done|]). by exists m.
  - destruct (Hall s) as [dat Hdat]; [by left|].
    cbn. unfold getitem. rewrite Hm. cbn. rewrite Hdat.
    destruct (process_data (DataInventory.dataclass self) dat products
                overwrite suffix overviews) as [dat'|e] eqn:Hp.
    + edestruct (IH
          {| DataInventory.dataclass := DataInventory.dataclass self;
             DataInventory.site := DataInventory.site self;
             DataInventory.tiles := DataInventory.tiles self;
             DataInventory.start_date := DataInventory.start_date self;
             DataInventory.end_date := DataInventory.end_date self;
             DataInventory.start_day := DataInventory.start_day self;
             DataInventory.end_day := DataInventory.end_day self;
             DataInventory.numfiles := DataInventory.numfiles self;
             DataInventory.data :=
               alter (insert s dat') date (DataInventory.data self) |}
          (log ++ [DataInventory.mkCall date s products overwrite])
          (<[s := dat']> m))
        as (made & rest & -> & Hlog & Hres).
      { cbn. by rewrite lookup_alter_eq, Hm. }
      { intros s' Hs'. destruct (decide (s = s')) as [->|Hne].
        - by rewrite lookup_insert_eq.
        - rewrite lookup_insert_ne by done. apply Hall. by right. }
      exists (s :: made), rest. split; [done|]. split.
      * rewrite Hlog. cbn. by rewrite <- app_assoc.
      * destruct (DataInventory.process_sensors _ date (made ++ rest) _ _ _ _ _).2
          as [self'|e]; [|done].
        destruct Hres as (-> & Hother & Hdate). split; [done|]. split; [|done].
        intros d Hd. rewrite Hother by done. cbn. by rewrite lookup_alter_ne.
    + exists [s], ss. cbn. done.
Qed.

Lemma process_calls_ext (self self' : DataInventory.t) (ds : list Date) :
  (forall d, d ∈ ds ->
     DataInventory.data self' !! d = DataInventory.data self !! d) ->
  flat_map (fun date =>
              match DataInventory.data self' !! date with
              | Some by_sensor =>
                  (fun s => DataInventory.mkCall date s products overwrite)
                    <$> (map_to_list by_sensor).*1
              | None => []
              end) ds
  = flat_map (fun date =>
                match DataInventory.data self !! date with
                | Some by_sensor =>
                    (fun s => DataInventory.mkCall date s products overwrite)
                      <$> (map_to_list by_sensor).*1
                | None => []
                end) ds.
Proof.
  induction ds as [|d ds IH]; intros Hsame; cbn; [done|].
  rewrite Hsame by (by left). rewrite IH; [done|].
  intros d' Hd'. apply Hsame. by right.
Qed.

(** The loop over the dates. *)
Lemma process_dates_spec (ds : list Date) (self : DataInventory.t)
    (log : list DataInventory.process_call) :
  NoDup ds -> (forall d, d ∈ ds -> is_Some (DataInventory.data self !! d)) ->
  exists made rest,
    flat_map (fun date =>
                match DataInventory.data self !! date with
                | Some by_sensor =>
                    (fun s => DataInventory.mkCall date s products overwrite)
                      <$> (map_to_list by_sensor).*1
                | None => []
                end) ds
    = made ++ rest
    /\ (DataInventory.process_dates self ds products overwrite suffix
          overviews log).1 = log ++ made
    /\ match (DataInventory.process_dates self ds products overwrite suffix
                overviews log).2 with
       | Ok self' =>
           rest = []
           /\ forall d, is_Some (DataInventory.data self' !! d)
                        <-> is_Some (DataInventory.data self !! d)
       | Raise _ => True
       end.
Proof.
  revert self log. induction ds as [|x ds IH]; intros self log Hnd Hall.
  - exists [], []. cbn. by rewrite app_nil_r.
  - apply NoDup_cons in Hnd as [Hx Hnd].
    destruct (Hall x) as [m Hm]; [by left|].
    cbn. unfold getitem. rewrite Hm.
    destruct (process_sensors_spec x (map_to_list m).*1 self log m Hm)
      as (made & rest & Hss & Hlog & Hres).
    { intros s Hs. apply list_elem_of_fmap in Hs as ([s' dat] & -> & Hin).
      apply elem_of_map_to_list in Hin. by exists dat. }
    destruct (DataInventory.process_sensors self x (map_to_list m).*1 products
                overwrite suffix overviews log) as [log1 [self1|e]] eqn:Hps;
      cbn in Hlog, Hres.
    + destruct Hres as (-> & Hother & Hdate). rewrite app_nil_r in Hss.
      destruct (IH self1 log1 Hnd) as (made' & rest' & Hcalls & Hlog' & Hres').
      { intros d Hd. rewrite Hother by (by intros ->). apply Hall. by right. }
      exists (((fun s => DataInventory.mkCall x s products overwrite) <$> made)
              ++ made'), rest'.
      split; [|split].
      * rewrite Hss, <- app_assoc. f_equal. rewrite <- Hcalls.
        symmetry. apply process_calls_ext. intros d Hd.
        apply Hother. by intros ->.
      * rewrite Hlog', Hlog. by rewrite app_assoc.
      * destruct (DataInventory.process_dates self1 ds _ _ _ _ _).2
          as [self'|e]; [|done].
        destruct Hres' as (-> & Hdom). split; [done|]. intros d. rewrite Hdom.
        destruct (decide (d = x)) as [->|Hne]; [|by rewrite Hother].
        by rewrite Hm.
    + exists ((fun s => DataInventory.mkCall x s products overwrite) <$> made),
             (((fun s => DataInventory.mkCall x s products overwrite) <$> rest)
              ++ flat_map (fun date =>
                   match DataInventory.data self !! date with
                   | Some by_sensor =>
                       (fun s => DataInventory.mkCall date s products overwrite)
                         <$> (map_to_list by_sensor).*1
                   | None => []
                   end) ds).
      cbn. split; [|done]. by rewrite Hss, fmap_app, <- app_assoc.
Qed.

(** X17. [process] calls the [process] method of the data sets date by
    date in ascending order, and for a date sensor by sensor, with the
    products and the overwrite flag it was given: the calls made are an
    initial part of that sequence; when [process] returns, every data set
    was called once and the inventory has the dates it had. *)
Theorem process_calls (self : DataInventory.t)
    (log : list DataInventory.process_call) (r : result DataInventory.t) :
  DataInventory.process self products overwrite suffix overviews = (log, r) ->
  let calls :=
    flat_map (fun date =>
                match DataInventory.data self !! date with
                | Some by_sensor =>
                    (fun s => DataInventory.mkCall date s products overwrite)
                      <$> (map_to_list by_sensor).*1
                | None => []
                end) (DataInventory.dates self) in
  (exists rest, calls = log ++ rest)
  /\ forall inv, r = Ok inv ->
       log = calls /\ DataInventory.dates inv = DataInventory.dates self.
Proof.
  intros Hp. cbv zeta. unfold DataInventory.process in Hp.
  destruct (process_dates_spec (DataInventory.dates self) self [])
    as (made & rest & Hcalls & Hlog & Hres).
  { apply NoDup_dates. }
  { intros d. by rewrite elem_of_dates. }
  rewrite Hp in Hlog, Hres. cbn in Hlog, Hres. subst log.
  split; [by exists rest|].
  intros inv ->. destruct Hres as (-> & Hdom).
  split; [by rewrite app_nil_r in Hcalls|]. by apply dates_ext.
Qed.

(** X18. On an inventory that [AddData] returned, a [process] that returns
    has made one call per date of the inventory, in ascending order of the
    dates, each with the products and the overwrite flag it was given. *)
Theorem process_after_AddData (self inv inv' : DataInventory.t)
    (dataclass : DataClass) (given : option (list string))
    (log : list DataInventory.process_call) :
  DataInventory.AddData self dataclass given = Ok inv ->
  DataInventory.process inv products overwrite suffix overviews
  = (log, Ok inv') ->
  DataInventory.call_date <$> log = DataInventory.dates inv
  /\ Forall (fun c => DataInventory.call_products c = products
                      /\ DataInventory.call_overwrite c = overwrite) log.
Proof.
  intros Hadd Hp. unfold DataInventory.process in Hp.
  destruct (process_dates_spec (DataInventory.dates inv) inv [])
    as (made & rest & Hcalls & Hlog & Hres).
  { apply NoDup_dates. }
  { intros d. by rewrite elem_of_dates. }
  rewrite Hp in Hlog, Hres. cbn in Hlog, Hres. subst log.
  destruct Hres as (-> & _). rewrite app_nil_r in Hcalls. rewrite <- Hcalls.
  assert (Hsingle : forall d, d ∈ DataInventory.dates inv ->
            exists s dat, DataInventory.data inv !! d = Some {[s := dat]}).
  { intros d [m Hm]%elem_of_dates.
    unfold DataInventory.AddData in Hadd.
    apply bind_Ok in Hadd as (self1 & _ & Hadd).
    apply bind_Ok in Hadd as (names & _ & Hadd).
    apply bind_Ok in Hadd as (ds & _ & Hadd).
    destruct (add_datasets_data _ _ _ _ _ _ _ Hadd Hm)
      as [Hempty|(dat & s & _ & _ & ->)].
    - cbn in Hempty. by rewrite lookup_empty in Hempty.
    - by exists s, dat. }
  clear Hcalls Hp. induction (DataInventory.dates inv) as [|d ds IH]; cbn.
  - split; [done|constructor].
  - destruct (Hsingle d) as (s & dat & ->); [by left|].
    rewrite map_to_list_singleton. cbn.
    destruct IH as [IH1 IH2]; [intros d' Hd'; apply Hsingle; by right|].
    split; [by rewrite IH1|]. by constructor.
Qed.

End ProcessProperties.

(** ** DataInventory: file names and products of a date *)

Section QueryProperties.
Context `{Ext : Externals}.

(** X19. [filenames] never yields file names: on an inventory with at least
    one date it raises [TypeError], the list [self.dates] being subscripted
    with a date, and on an empty inventory it returns [None]. *)
Theorem filenames_TypeError (self : DataInventory.t) (sensor product : string) :
  DataInventory.filenames self sensor product
  = if decide (DataInventory.data self = ∅) then Ok tt else Raise TypeError.
Proof.
  unfold DataInventory.filenames.
  destruct (DataInventory.dates self) as [|d ds] eqn:Hd.
  - apply dates_nil in Hd. by rewrite decide_True.
  - rewrite decide_False; [done|].
    intros Hempty%dates_nil. by rewrite Hempty in Hd.
Qed.

Lemma get_products_sorted (dat : Data.t) (ps : list string) :
  Data.get_products dat = Ok ps -> sorted_strs ps = ps.
Proof.
  unfold Data.get_products.
  intros (l & _ & [= <-])%bind_Ok.
  apply (StronglySorted_unique str_le).
  - apply StronglySorted_merge_sort; apply _.
  - apply StronglySorted_merge_sort; apply _.
  - unfold sorted_strs. by rewrite merge_sort_Permutation.
Qed.

(** X20. [get_products(date)] of an inventory raises [KeyError] for a date
    that is not one of its dates; for a date with one data set, as in
    every inventory that [AddData] builds, it is the [get_products] of that
    data set, errors included; and any list it returns is in ascending
    order. *)
Theorem get_products_of_date (self : DataInventory.t) (date : Date) :
  (date ∉ DataInventory.dates self ->
   DataInventory.get_products self date = Raise KeyError)
  /\ (forall s dat, DataInventory.data self !! date = Some {[s := dat]} ->
        DataInventory.get_products self date = Data.get_products dat)
  /\ (forall ps, DataInventory.get_products self date = Ok ps ->
        StronglySorted str_le ps).
Proof.
  unfold DataInventory.get_products, getitem. split; [|split].
  - rewrite elem_of_dates. intros Hnot.
    destruct (DataInventory.data self !! date) as [m|] eqn:Hm; [|done].
    destruct Hnot. by exists m.
  - intros s dat ->. cbn. rewrite map_to_list_singleton. cbn.
    destruct (Data.get_products dat) as [ps|e] eqn:Hps; cbn; [|done].
    by rewrite (get_products_sorted _ _ Hps).
  - intros ps (m & _ & (l & _ & [= <-])%bind_Ok)%bind_Ok.
    apply StronglySorted_merge_sort; apply _.
Qed.

End QueryProperties.

(** ** The calendar: days of the year and their text *)

Lemma days_before_month_bounds (y m : Z) :
  1 <= m <= 12 -> 0 <= days_before_month y m <= 335.
Proof.
  intros Hm. unfold days_before_month.
  assert (m = 1 \/ m = 2 \/ m = 3 \/ m = 4 \/ m = 5 \/ m = 6 \/ m = 7
          \/ m = 8 \/ m = 9 \/ m = 10 \/ m = 11 \/ m = 12) as Hcases by lia.
  destruct (is_leap y);
    repeat (destruct Hcases as [->|Hcases]; [cbv -[Z.le]; lia|]);
    subst; cbv -[Z.le]; lia.
Qed.

Lemma day_of_year_bounds (d : Date) :
  1 <= month d <= 12 -> 1 <= day d <= 31 -> 1 <= day_of_year d <= 366.
Proof.
  intros Hm Hd. unfold day_of_year.
  pose proof (days_before_month_bounds (year d) (month d) Hm). lia.
Qed.

(** X21. With the default day range, 1 to 366, the test of the day of the
    year rejects no calendar date: a date passes the filter of [AddData]
    exactly when it lies within the date bounds. *)
Theorem default_days_keep_every_date (sd ed d : Date) :
  1 <= month d <= 12 -> 1 <= day d <= 31 ->
  DataInventory.in_extent sd ed 1 366 d = (date_leb sd d && date_leb d ed)%bool.
Proof.
  intros Hm Hd. unfold DataInventory.in_extent.
  pose proof (day_of_year_bounds d Hm Hd) as [H1 H2].
  apply Z.leb_le in H1, H2. cbn zeta. rewrite H1, H2. cbn.
  by rewrite andb_true_r.
Qed.

Lemma daystr_of_day_of_year (d : Date) :
  DataInventory.daystr false d
  = DataInventory.daystr false (mkdate 1 1 (day_of_year d)).
Proof. unfold DataInventory.daystr, day_of_year. cbn. done. Qed.

(** X22. The text that [printcalendar] writes for a calendar date: without
    [md] it has exactly three characters and reads back, with [int], as
    the day of the year; with [md] it splits at ["-"] into two fields that
    read back as the month and the day. *)
Theorem daystr_reads_back (d : Date) :
  1 <= month d <= 12 -> 1 <= day d <= 31 ->
  (String.length (DataInventory.daystr false d) = 3%nat
   /\ int (DataInventory.daystr false d) = Ok (day_of_year d))
  /\ exists m dd, split "-" (DataInventory.daystr true d) = [m; dd]
       /\ int m = Ok (month d) /\ int dd = Ok (day d).
Proof.
  intros Hm Hd. split.
  - pose proof (day_of_year_bounds d Hm Hd) as Hj.
    rewrite daystr_of_day_of_year. generalize dependent (day_of_year d).
    intros j Hj.
    assert (Hall :
      forallb (fun j =>
                 let s := DataInventory.daystr false (mkdate 1 1 j) in
                 (Nat.eqb (String.length s) 3
                  && match int s with Ok v => v =? j | Raise _ => false end)%bool)
              (Z.of_nat <$> seq 1 366) = true)
      by (vm_compute; reflexivity).
    rewrite forallb_forall in Hall.
    specialize (Hall j). cbv zeta in Hall.
    rewrite andb_true_iff, Nat.eqb_eq in Hall.
    destruct Hall as [Hlen Hint].
    { apply in_map_iff. exists (Z.to_nat j). split; [lia|]. apply in_seq. lia. }
    split; [done|].
    destruct (int _) as [v|e]; [|done]. apply Z.eqb_eq in Hint. by subst.
  - assert (Hall :
      forallb (fun m =>
        forallb (fun dd =>
                   match split "-" (DataInventory.daystr true (mkdate 1 m dd)) with
                   | [a; b] =>
                       match int a, int b with
                       | Ok x, Ok y => ((x =? m) && (y =? dd))%bool
                       | _, _ => false
                       end
                   | _ => false
                   end)
                (Z.of_nat <$> seq 1 31))
        (Z.of_nat <$> seq 1 12) = true)
      by (vm_compute; reflexivity).
    assert (Hmi : In (month d) (Z.of_nat <$> seq 1 12)).
    { apply in_map_iff. exists (Z.to_nat (month d)).
      split; [lia|]. apply in_seq. lia. }
    assert (Hdi : In (day d) (Z.of_nat <$> seq 1 31)).
    { apply in_map_iff. exists (Z.to_nat (day d)).
      split; [lia|]. apply in_seq. lia. }
    rewrite forallb_forall in Hall. specialize (Hall _ Hmi).
    rewrite forallb_forall in Hall. specialize (Hall _ Hdi).
    assert (Heq : DataInventory.daystr true d
                  = DataInventory.daystr true (mkdate 1 (month d) (day d)))
      by done.
    rewrite Heq.
    destruct (split "-" (DataInventory.daystr true (mkdate 1 (month d) (day d))))
      as [|a [|b [|c l]]]; try discriminate.
    exists a, b. split; [done|].
    destruct (int a) as [x|], (int b) as [y|]; try discriminate.
    apply andb_true_iff in Hall as [->%Z.eqb_eq ->%Z.eqb_eq]. done.
Qed.

(** ** The colours of the sensors *)

Section ColourProperties.
Context `{Ext : Externals}.

Lemma colororder_colorize (i : nat) (c s : string) :
  index DataInventory._colororder i = Ok c ->
  exists line, DataInventory._colorize s c = Ok line.
Proof.
  unfold index. do 4 (destruct i as [|i]; [intros [= <-]; by eexists|]).
  by destruct i.
Qed.

Lemma index_colororder (i : nat) :
  (i < 4)%nat -> exists c, index DataInventory._colororder i = Ok c.
Proof.
  intros Hi. do 4 (destruct i as [|i]; [by eexists|]). lia.
Qed.

Lemma index_colororder_Raise (i : nat) :
  (4 <= i)%nat -> index DataInventory._colororder i = Raise IndexError.
Proof.
  intros Hi. do 4 (destruct i as [|i]; [lia|]). unfold index. by destruct i.
Qed.

Lemma legend_loop_spec (ss : list string) (i : nat) (out : list string) :
  (i <= 4)%nat ->
  exists lines,
    DataInventory.legend_loop i ss out
    = (out ++ lines,
       if bool_decide (i + length ss <= 4)%nat then Ok tt else Raise IndexError)
    /\ length lines = Nat.min (length ss) (4 - i).
Proof.
  revert i out. induction ss as [|s ss IH]; intros i out Hi;
    cbn [DataInventory.legend_loop length].
  - exists []. rewrite app_nil_r. rewrite bool_decide_eq_true_2 by lia.
    split; [done|]. cbn. lia.
  - destruct (decide (i < 4)%nat) as [Hlt|Hge].
    + destruct (index_colororder i Hlt) as [c Hc]. rewrite Hc.
      cbn [mbind result_bind].
      destruct (colororder_colorize i c s Hc) as [line ->].
      destruct (IH (S i) (out ++ [line])) as (lines & -> & Hlen); [lia|].
      exists (line :: lines). split.
      * rewrite <- app_assoc.
        assert (Hb : bool_decide (S i + length ss <= 4)%nat
                     = bool_decide (i + S (length ss) <= 4)%nat)
          by (apply bool_decide_ext; lia).
        by rewrite Hb.
      * cbn [length]. rewrite Hlen. lia.
    + rewrite index_colororder_Raise by lia. cbn [mbind result_bind].
      exists []. rewrite app_nil_r, bool_decide_eq_false_2 by lia.
      split; [done|]. cbn [length]. lia.
Qed.

Lemma colors_loop_spec (ss : list string) (i : nat) (acc : gmap string string) :
  (i <= 4)%nat ->
  if bool_decide (i + length ss <= 4)%nat
  then exists c, DataInventory.colors_loop i ss acc = Ok c
         /\ forall s, is_Some (c !! s) <-> is_Some (acc !! s) \/ s ∈ ss
  else DataInventory.colors_loop i ss acc = Raise IndexError.
Proof.
  revert i acc. induction ss as [|s ss IH]; intros i acc Hi; cbn.
  - rewrite bool_decide_eq_true_2 by lia. exists acc. split; [done|].
    intros s. split; [by left|]. by intros [?|?%elem_of_nil].
  - destruct (decide (i < 4)%nat) as [Hlt|Hge].
    + destruct (index_colororder i Hlt) as [c ->]. cbn.
      specialize (IH (S i) (<[s := c]> acc)).
      rewrite (bool_decide_ext (i + S (length ss) <= 4)%nat
                               (S i + length ss <= 4)%nat) by lia.
      case_bool_decide; [|apply IH; lia].
      destruct IH as (c' & -> & Hc'); [lia|]. exists c'. split; [done|].
      intros s'. rewrite Hc', elem_of_cons.
      destruct (decide (s = s')) as [->|Hne].
      * rewrite lookup_insert_eq. split; [by right; left|by left].
      * rewrite lookup_insert_ne by done. split.
        -- intros [?|?]; [by left|by right; right].
        -- intros [?|[?|?]]; [by left|done|by right].
    + rewrite index_colororder_Raise by lia. cbn.
      by rewrite bool_decide_eq_false_2 by lia.
Qed.

Lemma length_sensor_names (cls : ClassAttrs) :
  length (Data.sensor_names cls) = size (sensors cls).
Proof.
  unfold Data.sensor_names, sorted_strs.
  rewrite merge_sort_Permutation, length_fmap. apply length_map_to_list.
Qed.

(** X23. [sensor_names] lists the names of the sensors of the class in
    ascending order, a name as often as sensors have it.  With at most
    four sensors [legend] prints one line per sensor and the calendar
    gives every sensor name a colour; with more than four, [legend] raises
    [IndexError] after four lines and so does the colour assignment of
    [printcalendar]: [_colororder] has four colours.  No colour of
    [_colororder] is unknown to [_colorize]. *)
Theorem colours_of_sensors (self : DataInventory.t) :
  let cls := attrs (DataInventory.dataclass self) in
  StronglySorted str_le (Data.sensor_names cls)
  /\ Data.sensor_names cls ≡ₚ (map_to_list (sensors cls)).*2
  /\ (exists lines,
        DataInventory.legend self
        = (lines, if bool_decide (size (sensors cls) <= 4)%nat
                  then Ok tt else Raise IndexError)
        /\ length lines = Nat.min (size (sensors cls)) 4)
  /\ if bool_decide (size (sensors cls) <= 4)%nat
     then exists c, DataInventory.colors self = Ok c
            /\ forall s, is_Some (c !! s) <-> s ∈ Data.sensor_names cls
     else DataInventory.colors self = Raise IndexError.
Proof.
  cbv zeta. set (cls := attrs (DataInventory.dataclass self)).
  split; [|split; [|split]].
  - apply StronglySorted_merge_sort; apply _.
  - apply merge_sort_Permutation.
  - destruct (legend_loop_spec (Data.sensor_names cls) 0 [])
      as (lines & Hl & Hlen); [lia|].
    exists lines. unfold DataInventory.legend. fold cls.
    change (sorted_strs (map_to_list (sensors cls)).*2)
      with (Data.sensor_names cls).
    rewrite Hl, Hlen, length_sensor_names. cbn. split; [done|]. lia.
  - pose proof (colors_loop_spec (Data.sensor_names cls) 0 ∅) as Hc.
    rewrite length_sensor_names in Hc. cbn in Hc.
    unfold DataInventory.colors. fold cls.
    case_bool_decide; [|apply Hc; lia].
    destruct Hc as (c & -> & Hc); [lia|]. exists c. split; [done|].
    intros s. rewrite Hc, lookup_empty. split; [|by right].
    by intros [[? ?]|?].
Qed.

End ColourProperties.

(** ** Failures of the day range and of the tile directories *)

Section FailureProperties.
Context `{Ext : Externals}.

Lemma split_not_nil (sep : ascii) (s : string) : split sep s <> [].
Proof.
  induction s as [|c s IH]; cbn; [done|].
  destruct (Ascii.eqb c sep); [done|]. by destruct (split sep s).
Qed.

Lemma int_Raise (s : string) (e : exn) : int s = Raise e -> e = ValueError.
Proof.
  unfold int.
  destruct (match lstrip s with
            | String "-" s' => (true, s')
            | String "+" s' => (false, s')
            | _ => (false, lstrip s)
            end) as [neg s'].
  destruct (read_digits (lstrip s') 0 0) as [[n v] rest].
  destruct n; [by intros [= <-]|].
  destruct (lstrip rest); [done|by intros [= <-]].
Qed.

Local Arguments split : simpl never.
Local Arguments int : simpl never.

(** X24. When the date range parses, a non-empty day range makes
    [temporal_extent] raise [IndexError] exactly when it has a single
    field, which reads as an integer, and [ValueError] exactly when its
    first field, or else its second, does not read as an integer; it
    raises nothing else. *)
Theorem temporal_extent_exceptions (self : DataInventory.t)
    (dates : option string) (sd ed : Date) (s : string) :
  dateparse_range (match dates with None => "1984,2050" | Some s => s end)
  = Ok (sd, ed) ->
  s <> "" ->
  (DataInventory.temporal_extent self dates (Some s) = Raise IndexError <->
     exists d0 a, split "," s = [d0] /\ int d0 = Ok a)
  /\ (DataInventory.temporal_extent self dates (Some s) = Raise ValueError <->
        (exists d0 rest, split "," s = d0 :: rest /\ int d0 = Raise ValueError)
        \/ exists d0 d1 rest a,
             split "," s = d0 :: d1 :: rest
             /\ int d0 = Ok a /\ int d1 = Raise ValueError)
  /\ forall e, DataInventory.temporal_extent self dates (Some s) = Raise e ->
       e = IndexError \/ e = ValueError.
Proof.
  intros Hrange Hs. unfold DataInventory.temporal_extent. rewrite Hrange.
  destruct s as [|c s]; [done|]. cbn.
  pose proof (split_not_nil "," (String c s)) as Hne.
  destruct (split "," (String c s)) as [|d0 [|d1 rest]]; [done| |]; cbn.
  - destruct (int d0) as [a|e] eqn:Ha; cbn.
    + split; [|split].
      * split; [by exists d0, a|done].
      * split; [done|]. intros [(? & ? & [= <- <-] & ?)|(? & ? & ? & ? & [=] & _)].
        congruence.
      * intros e [= <-]. by left.
    + apply int_Raise in Ha as Hv. subst e. split; [|split].
      * split; [done|]. intros (? & ? & [= <-] & ?). congruence.
      * split; [|done]. intros _. left. by exists d0, [].
      * intros e [= <-]. by right.
  - destruct (int d0) as [a|e] eqn:Ha; cbn.
    + destruct (int d1) as [b|e] eqn:Hb; cbn.
      * split; [|split].
        -- split; [done|]. by intros (? & ? & [=] & _).
        -- split; [done|].
           intros [(? & ? & [= <- <-] & ?)|(? & ? & ? & ? & [= <- <- <-] & _ & ?)];
             congruence.
        -- done.
      * apply int_Raise in Hb as Hv. subst e. split; [|split].
        -- split; [done|]. by intros (? & ? & [=] & _).
        -- split; [|done]. intros _. right. by exists d0, d1, rest, a.
        -- intros e [= <-]. by right.
    + apply int_Raise in Ha as Hv. subst e. split; [|split].
      * split; [done|]. by intros (? & ? & [=] & _).
      * split; [|done]. intros _. left. by exists d0, (d1 :: rest).
      * intros e [= <-]. by right.
Qed.

Lemma matching_dates_all_found (self : DataInventory.t) (cls : ClassAttrs)
    (tiles : list string) (dates res : list Date) (t : string) :
  DataInventory.matching_dates self cls tiles dates = Ok res ->
  t ∈ tiles -> exists found, Data.find_dates cls t = Ok found.
Proof.
  revert dates. induction tiles as [|t' tiles IH]; intros dates; cbn.
  - by intros _ ?%elem_of_nil.
  - intros (found & Hfound & Hrest)%bind_Ok [->|Hin]%elem_of_cons.
    + by exists found.
    + by eapply IH.
Qed.

(** X25. [AddData] returns an inventory only when, for every one of its
    tiles, the directory of the tile could be listed and every entry of it
    parsed as a date: one tile without a directory, or one entry that is
    not a date, and no inventory is built. *)
Theorem AddData_reads_every_tile (self inv : DataInventory.t)
    (dataclass : DataClass) (products : option (list string))
    (tiles : tiles_arg) (t : string) :
  DataInventory.AddData self dataclass products = Ok inv ->
  DataInventory.tiles inv = Some tiles -> t ∈ iter_tiles tiles ->
  exists names found,
    listdir (Data.path (attrs dataclass) t "") = Ok names
    /\ Forall2 (fun n d => strptime_Yj (basename n) = Ok d) names found.
Proof.
  unfold DataInventory.AddData.
  intros (self1 & Hself1 & (names & Hnames & (ds & Hds & Hadd)%bind_Ok)%bind_Ok)%bind_Ok
         Htiles Ht.
  destruct (add_datasets_spec _ _ _ _ _ Hadd) as (_ & Htl & _).
  cbn in Htl. rewrite Htiles in Htl. rewrite <- Htl in Hnames.
  injection Hnames as <-.
  destruct (matching_dates_all_found _ _ _ _ _ _ Hds Ht) as [found Hfound].
  unfold Data.find_dates in Hfound.
  apply bind_Ok in Hfound as (ns & Hns & Hall).
  apply parse_dates_Forall2 in Hall. by exists ns, found.
Qed.

End FailureProperties.

(** ** The further properties on the concrete world *)

Lemma filename_after_init_KeyError_witness :
  exists self,
    Data.init (Ext := Fixture.ext) Fixture.cls None
      (Some (TileList ["000123"])) None None = Ok self
    /\ Data.filename self "toaref" (Some "000123") = Raise KeyError.
Proof.
  eexists. split; [reflexivity|].
  apply (filename_after_init_KeyError (Ext := Fixture.ext) Fixture.cls None
           (Some (TileList ["000123"])) None None).
  reflexivity.
Defined.

Lemma get_products_after_init_witness :
  exists self,
    Data.init (Ext := Fixture.ext) Fixture.cls None
      (Some (TileList ["000123"; "000124"])) None None = Ok self
    /\ Data.get_products self
       = if decide (Data.tiles self = ∅) then Ok [] else Raise KeyError.
Proof.
  eexists. split; [reflexivity|].
  apply (get_products_after_init (Ext := Fixture.ext) Fixture.cls None
           (Some (TileList ["000123"; "000124"])) None None).
  reflexivity.
Defined.

Lemma vector2tiles_layer_order_witness :
  Data.vector2tiles Fixture.cls Fixture.region
  = Data.vector2tiles Fixture.cls_rev Fixture.region.
Proof.
  apply (vector2tiles_layer_order (Ext := Fixture.ext) Fixture.cls
           Fixture.cls_rev Fixture.region Fixture.grid (rev Fixture.grid)).
  - reflexivity.
  - reflexivity.
  - apply Permutation_rev.
  - apply (bool_decide_unpack _). vm_compute. reflexivity.
Defined.

Lemma vector2tiles_last_feature_wins_witness :
  exists l1 f l2,
    List.filter (fun f => spatial_filter (Externals := Fixture.ext)
                            Fixture.region (geometry f)) Fixture.clash_grid
    = l1 ++ f :: l2
    /\ Data.tile_id f = "012345"
    /\ ~ Qeq (intersection_area (Externals := Fixture.ext) Fixture.region
               (geometry f)) 0
    /\ (50 # 300)%Q
       = Qdiv (intersection_area (Externals := Fixture.ext) Fixture.region
                 (geometry f))
              (geom_area (Externals := Fixture.ext) Fixture.region)
    /\ forall f', f' ∈ l2 -> Data.tile_id f' = "012345" ->
         Qeq (intersection_area (Externals := Fixture.ext) Fixture.region
                (geometry f')) 0.
Proof.
  apply (vector2tiles_last_feature_wins (Ext := Fixture.ext) Fixture.clash_cls
           Fixture.region Fixture.region Fixture.region Fixture.clash_grid
           {["012345" := (50 # 300)%Q]} "012345" (50 # 300)%Q).
  - reflexivity.
  - reflexivity.
  - reflexivity.
  - vm_compute. reflexivity.
  - reflexivity.
Defined.


Lemma AddData_datasets_witness :
  exists inv,
    DataInventory.AddData Fixture.extent (Fixture.subclass ∅) None = Ok inv
    /\ forall d m, DataInventory.data inv !! d = Some m ->
         exists dat s,
           new (Fixture.subclass ∅) (DataInventory.site inv)
             (DataInventory.tiles inv) (Some d) None = Ok dat
           /\ Data.sensor dat = Some s /\ m = {[s := dat]}.
Proof.
  destruct (DataInventory.AddData Fixture.extent (Fixture.subclass ∅) None)
    as [inv|e] eqn:Hadd.
  - exists inv. split; [reflexivity|]. intros d m.
    apply (AddData_datasets (Ext := Fixture.ext) Fixture.extent inv
             (Fixture.subclass ∅) None d m Hadd).
  - assert (Hok : is_Ok (DataInventory.AddData Fixture.extent
                           (Fixture.subclass ∅) None) = true)
      by (vm_compute; reflexivity).
    rewrite Hadd in Hok. discriminate.
Defined.

Lemma AddData_numfiles_witness :
  exists inv,
    DataInventory.AddData Fixture.extent (Fixture.subclass ∅) None = Ok inv
    /\ DataInventory.numfiles inv
       = map_fold (fun _ by_sensor n =>
                     n + map_fold (fun _ dat k =>
                                     k + Z.of_nat (size (Data.tiles dat)))
                           0 by_sensor) 0 (DataInventory.data inv).
Proof.
  destruct (DataInventory.AddData Fixture.extent (Fixture.subclass ∅) None)
    as [inv|e] eqn:Hadd.
  - exists inv. split; [reflexivity|].
    apply (AddData_numfiles (Ext := Fixture.ext) Fixture.extent inv
             (Fixture.subclass ∅) None Hadd).
  - assert (Hok : is_Ok (DataInventory.AddData Fixture.extent
                           (Fixture.subclass ∅) None) = true)
      by (vm_compute; reflexivity).
    rewrite Hadd in Hok. discriminate.
Defined.

Lemma AddData_base_class_empty_witness :
  exists inv,
    DataInventory.AddData Fixture.late (Data_class Fixture.cls) None = Ok inv
    /\ DataInventory.data inv = ∅ /\ DataInventory.numfiles inv = 0.
Proof.
  destruct (DataInventory.AddData Fixture.late (Data_class Fixture.cls) None)
    as [inv|e] eqn:Hadd.
  - exists inv. split; [reflexivity|].
    destruct (AddData_base_class_empty (Ext := Fixture.ext) Fixture.late inv
                Fixture.cls None Hadd) as (Hdata & Hnum & _).
    split; [exact Hdata|exact Hnum].
  - assert (Hok : is_Ok (DataInventory.AddData Fixture.late
                           (Data_class Fixture.cls) None) = true)
      by (vm_compute; reflexivity).
    rewrite Hadd in Hok. discriminate.
Defined.

Lemma AddData_inverted_bounds_witness :
  exists inv,
    DataInventory.AddData Fixture.inverted (Fixture.subclass ∅) None = Ok inv
    /\ DataInventory.dates inv = [] /\ DataInventory.numdates inv = 0.
Proof.
  destruct (DataInventory.AddData Fixture.inverted (Fixture.subclass ∅) None)
    as [inv|e] eqn:Hadd.
  - exists inv. split; [reflexivity|].
    apply (AddData_inverted_bounds (Ext := Fixture.ext) Fixture.inverted inv
             (Fixture.subclass ∅) None Hadd).
    left. reflexivity.
  - assert (Hok : is_Ok (DataInventory.AddData Fixture.inverted
                           (Fixture.subclass ∅) None) = true)
      by (vm_compute; reflexivity).
    rewrite Hadd in Hok. discriminate.
Defined.

Lemma AddData_tiles_witness :
  exists inv,
    DataInventory.AddData Fixture.by_site (Fixture.subclass ∅) None = Ok inv
    /\ exists site vector cover,
         DataInventory.site Fixture.by_site = Some site
         /\ GeoVector site = Ok vector
         /\ Data.vector2tiles (attrs (Fixture.subclass ∅)) vector = Ok cover
         /\ DataInventory.tiles inv = Some (TileDict cover).
Proof.
  destruct (DataInventory.AddData Fixture.by_site (Fixture.subclass ∅) None)
    as [inv|e] eqn:Hadd.
  - exists inv. split; [reflexivity|].
    apply (AddData_tiles (Ext := Fixture.ext) Fixture.by_site inv
             (Fixture.subclass ∅) None Hadd).
  - assert (Hok : is_Ok (DataInventory.AddData Fixture.by_site
                           (Fixture.subclass ∅) None) = true)
      by (vm_compute; reflexivity).
    rewrite Hadd in Hok. discriminate.
Defined.

Lemma process_calls_witness :
  (exists rest,
     flat_map (fun date =>
                 match DataInventory.data Fixture.stock !! date with
                 | Some by_sensor =>
                     (fun s => DataInventory.mkCall date s ["toaref"] false)
                       <$> (map_to_list by_sensor).*1
                 | None => []
                 end) (DataInventory.dates Fixture.stock)
     = (DataInventory.process Fixture.stock ["toaref"] false "" false).1
       ++ rest)
  /\ forall inv,
       (DataInventory.process Fixture.stock ["toaref"] false "" false).2
       = Ok inv ->
       (DataInventory.process Fixture.stock ["toaref"] false "" false).1
       = flat_map (fun date =>
                     match DataInventory.data Fixture.stock !! date with
                     | Some by_sensor =>
                         (fun s => DataInventory.mkCall date s ["toaref"] false)
                           <$> (map_to_list by_sensor).*1
                     | None => []
                     end) (DataInventory.dates Fixture.stock)
       /\ DataInventory.dates inv = DataInventory.dates Fixture.stock.
Proof.
  apply (process_calls (Ext := Fixture.ext) ["toaref"] false "" false
           Fixture.stock).
  apply surjective_pairing.
Defined.

Lemma process_after_AddData_witness :
  exists inv log inv',
    DataInventory.AddData Fixture.extent (Fixture.subclass ∅) None = Ok inv
    /\ DataInventory.process inv ["toaref"] false "" false = (log, Ok inv')
    /\ DataInventory.call_date <$> log = DataInventory.dates inv
    /\ Forall (fun c => DataInventory.call_products c = ["toaref"]
                        /\ DataInventory.call_overwrite c = false) log.
Proof.
  assert (Hok : is_Ok (inv ← DataInventory.AddData Fixture.extent
                               (Fixture.subclass ∅) None;
                       (DataInventory.process inv ["toaref"] false "" false).2)
                = true)
    by (vm_compute; reflexivity).
  destruct (DataInventory.AddData Fixture.extent (Fixture.subclass ∅) None)
    as [inv|e] eqn:Hadd; [|discriminate].
  cbn in Hok.
  destruct (DataInventory.process inv ["toaref"] false "" false)
    as [log [inv'|e]] eqn:Hp; [|discriminate].
  exists inv, log, inv'. split; [reflexivity|]. split; [exact Hp|].
  apply (process_after_AddData (Ext := Fixture.ext) ["toaref"] false "" false
           Fixture.extent inv inv' (Fixture.subclass ∅) None log Hadd Hp).
Defined.

Lemma default_days_keep_every_date_witness :
  DataInventory.in_extent (mkdate 2020 1 1) (mkdate 2020 12 31) 1 366
    (mkdate 2020 12 31)
  = (date_leb (mkdate 2020 1 1) (mkdate 2020 12 31)
     && date_leb (mkdate 2020 12 31) (mkdate 2020 12 31))%bool.
Proof.
  apply (default_days_keep_every_date (mkdate 2020 1 1) (mkdate 2020 12 31)
           (mkdate 2020 12 31)); cbn; lia.
Defined.

Lemma daystr_reads_back_witness :
  (String.length (DataInventory.daystr false (mkdate 2020 2 14)) = 3%nat
   /\ int (DataInventory.daystr false (mkdate 2020 2 14))
      = Ok (day_of_year (mkdate 2020 2 14)))
  /\ exists m dd,
       split "-" (DataInventory.daystr true (mkdate 2020 2 14)) = [m; dd]
       /\ int m = Ok (month (mkdate 2020 2 14))
       /\ int dd = Ok (day (mkdate 2020 2 14)).
Proof.
  apply (daystr_reads_back (mkdate 2020 2 14)); cbn; lia.
Defined.

Lemma temporal_extent_exceptions_witness :
  (DataInventory.temporal_extent (Ext := Fixture.ext) Fixture.blank None
     (Some "45") = Raise IndexError <->
     exists d0 a, split "," "45" = [d0] /\ int d0 = Ok a)
  /\ (DataInventory.temporal_extent (Ext := Fixture.ext) Fixture.blank None
        (Some "45") = Raise ValueError <->
        (exists d0 rest, split "," "45" = d0 :: rest /\ int d0 = Raise ValueError)
        \/ exists d0 d1 rest a,
             split "," "45" = d0 :: d1 :: rest
             /\ int d0 = Ok a /\ int d1 = Raise ValueError)
  /\ forall e,
       DataInventory.temporal_extent (Ext := Fixture.ext) Fixture.blank None
         (Some "45") = Raise e ->
       e = IndexError \/ e = ValueError.
Proof.
  apply (temporal_extent_exceptions (Ext := Fixture.ext) Fixture.blank None
           (mkdate 1984 1 1) (mkdate 2050 12 31) "45").
  - reflexivity.
  - discriminate.
Defined.

Lemma AddData_reads_every_tile_witness :
  exists inv,
    DataInventory.AddData Fixture.extent (Fixture.subclass ∅) None = Ok inv
    /\ exists names found,
         listdir (Externals := Fixture.ext)
           (Data.path (attrs (Fixture.subclass ∅)) "000124" "") = Ok names
         /\ Forall2 (fun n d => strptime_Yj (Externals := Fixture.ext)
                                  (basename n) = Ok d) names found.
Proof.
  destruct (DataInventory.AddData Fixture.extent (Fixture.subclass ∅) None)
    as [inv|e] eqn:Hadd.
  - exists inv. split; [reflexivity|].
    destruct (AddData_spec (Ext := Fixture.ext) _ _ _ _ Hadd)
      as (self1 & tiles & Hst & Hres & Htiles & _).
    change (Ok Fixture.extent = Ok self1) in Hst. injection Hst as <-.
    change (Some (TileList ["000123"; "000124"]) = Some tiles) in Hres.
    injection Hres as <-.
    apply (AddData_reads_every_tile (Ext := Fixture.ext) Fixture.extent inv
             (Fixture.subclass ∅) None (TileList ["000123"; "000124"])
             "000124" Hadd Htiles).
    right. left.
  - assert (Hok : is_Ok (DataInventory.AddData Fixture.extent
                           (Fixture.subclass ∅) None) = true)
      by (vm_compute; reflexivity).
    rewrite Hadd in Hok. discriminate.
Defined.
